(** * Build and run wrappers of the CsharpUAI repository

    Shallow embedding of [build.py], [MultipleAIApp/r.py] and
    [MultipleAIApp/b.py].  The scripts are sequential Python programs whose
    only effects are printing, changing directory, touching the file system
    and driving child processes.  They are embedded in a small
    writer-and-exception monad: a computation yields either a value or a
    raised Python exception, together with the list of events it performed.
    Everything the outside world decides (exit codes of children, spawn
    failures, interrupts, which files exist) is read from a [world] record,
    so every definition is a total, executable function. *)

From Stdlib Require Import List String Ascii ZArith Bool Lia DecimalString.
Import ListNotations.
Local Open Scope string_scope.
Local Open Scope Z_scope.

(** ** Python values and exceptions *)

Module Py.

(** The exceptions the three scripts can meet.  [KeyboardInterrupt] and
    [SystemExit] derive from [BaseException] only; the others derive from
    [Exception]. *)
Inductive exn : Type :=
| KeyboardInterrupt
| SystemExit (code : Z)
| CalledProcessError (cmd : list string) (returncode : Z)
    (stdout stderr : string)
| TimeoutExpired
| ValueError
| OSError (msg : string).

(** What can go wrong in a call into the operating system before any
    child runs: the user's interrupt, or an error of the system itself
    ([FileNotFoundError], [PermissionError], ...), with its message. *)
Inductive fault : Type :=
| Interrupt
| Fails (msg : string).

Definition fault_exn (f : fault) : exn :=
  match f with
  | Interrupt => KeyboardInterrupt
  | Fails msg => OSError msg
  end.

Definition is_Exception (e : exn) : bool :=
  match e with
  | KeyboardInterrupt | SystemExit _ => false
  | _ => true
  end.

(** What the scripts do to the outside, in program order.  [Say] is a
    [print] of a message of the wrapper itself, [Echo] a [print] of output
    captured from a child. *)
Inductive event : Type :=
| Say (s : string)
| Echo (s : string)
| Chdir
| Rmtree (path : string)
| Run (cmd : list string)
| Popen (cmd : list string)
| Wait (timeout : option Z)
| Terminate
| Kill.

Inductive res (A : Type) : Type :=
| Ret (a : A)
| Raise (e : exn).
Arguments Ret {A} a.
Arguments Raise {A} e.

Definition M (A : Type) : Type := (res A * list event)%type.

Definition ret {A} (a : A) : M A := (Ret a, []).
Definition raise {A} (e : exn) : M A := (Raise e, []).
Definition emit (ev : event) : M unit := (Ret tt, [ev]).
Definition print (s : string) : M unit := emit (Say s).

Definition bind {A B} (m : M A) (f : A -> M B) : M B :=
  match m with
  | (Ret a, l) => let (r, l') := f a in (r, (l ++ l')%list)
  | (Raise e, l) => (Raise e, l)
  end.

(** [try: m except ...: h]: [h e] is [Some k] when a clause matches [e]. *)
Definition try_except {A} (m : M A) (h : exn -> option (M A)) : M A :=
  match m with
  | (Ret a, l) => (Ret a, l)
  | (Raise e, l) =>
      match h e with
      | Some k => let (r, l') := k in (r, (l ++ l')%list)
      | None => (Raise e, l)
      end
  end.

Definition sys_exit {A} (code : Z) : M A := raise (SystemExit code).

Definition when (b : bool) (m : M unit) : M unit := if b then m else ret tt.

(** Status with which the interpreter leaves once the script's [main]
    is over: 0 at a normal return, the argument of [sys.exit], 1 after a
    traceback.  An uncaught [KeyboardInterrupt] ends the interpreter by
    the interrupt signal, with no exit status of its own. *)
Definition exit_status {A} (m : M A) : option Z :=
  match fst m with
  | Ret _ => Some 0
  | Raise (SystemExit c) => Some c
  | Raise KeyboardInterrupt => None
  | Raise _ => Some 1
  end.

Definition log {A} (m : M A) : list event := snd m.

(** Every event of a computation satisfies [P]. *)
Definition log_all {A} (P : event -> Prop) (m : M A) : Prop :=
  Forall P (log m).

(** A computation that raises nothing but the exceptions of a [fault]. *)
Definition is_fault (e : exn) : bool :=
  match e with
  | KeyboardInterrupt | OSError _ => true
  | _ => false
  end.
Definition faults_only {A} (m : M A) : Prop :=
  match fst m with
  | Ret _ => True
  | Raise e => is_fault e = true
  end.

(** A computation that ends with a value. *)
Definition returns {A} (m : M A) : Prop :=
  match fst m with
  | Ret _ => True
  | Raise _ => False
  end.

(** The events that act on a child of [Popen], in program order. *)
Definition is_child_event (ev : event) : bool :=
  match ev with
  | Popen _ | Wait _ | Terminate | Kill => true
  | _ => false
  end.
Definition child_events (l : list event) : list event :=
  filter is_child_event l.

(** [str(n)] for an integer. *)
Definition str_int (n : Z) : string := NilZero.string_of_int (Z.to_int n).

(** [repr] of a list of strings, exact for strings without quote,
    backslash or control characters. *)
Definition repr_list (l : list string) : string :=
  "[" ++ String.concat ", " (map (fun s => "'" ++ s ++ "'") l) ++ "]".

(** [str(e)]. *)
Definition str_exn (e : exn) : string :=
  match e with
  | KeyboardInterrupt => EmptyString
  | SystemExit c => str_int c
  | CalledProcessError cmd rc _ _ =>
      "Command '" ++ repr_list cmd ++ "' returned non-zero exit status "
        ++ str_int rc ++ "."
  | TimeoutExpired => "Command timed out"
  | ValueError => "'--' is not in list"
  | OSError msg => msg
  end.

(** [x in l] and [l.index(x)] on lists of strings. *)
Definition contains (x : string) (l : list string) : bool :=
  existsb (String.eqb x) l.

Fixpoint index (x : string) (l : list string) : option nat :=
  match l with
  | [] => None
  | y :: l' => if String.eqb y x then Some O else option_map S (index x l')
  end.

(** [l[a:b]] and [l[a:]] for indices that are not negative. *)
Definition slice {A} (l : list A) (a b : nat) : list A :=
  firstn (b - a)%nat (skipn a l).
Definition slice_from {A} (l : list A) (a : nat) : list A := skipn a l.

(** Truth value of a list and of a string. *)
Definition truthy {A} (l : list A) : bool :=
  match l with [] => false | _ => true end.
Definition nonempty (s : string) : bool :=
  match s with EmptyString => false | _ => true end.

(** The newline of ["\n..."] literals. *)
Definition LF : string := String (ascii_of_nat 10) EmptyString.

(** How a child started by [subprocess.run] ends: it exits with a return
    code and the text it wrote, or it cannot be started, or the user
    interrupts the wait. *)
Inductive outcome : Type :=
| Exited (returncode : Z) (stdout stderr : string)
| SpawnError (msg : string)
| Interrupted.

(** [for x in l: body]. *)
Fixpoint for_each {A} (l : list A) (body : A -> M unit) : M unit :=
  match l with
  | [] => ret tt
  | x :: l' => bind (body x) (fun _ => for_each l' body)
  end.

(** [for x in l: s = body(s, x)], for a loop that updates one local. *)
Fixpoint for_fold {A S} (l : list A) (s : S) (body : S -> A -> M S) : M S :=
  match l with
  | [] => ret s
  | x :: l' => bind (body s x) (fun s' => for_fold l' s' body)
  end.

End Py.

Import Py.

Declare Scope py_scope.
Delimit Scope py_scope with py.
Notation "x <- m ;; k" := (bind m (fun x => k))
  (at level 61, m at next level, right associativity) : py_scope.
Notation "m ;; k" := (bind m (fun _ => k))
  (at level 61, right associativity) : py_scope.
Local Open Scope py_scope.

(** ** MultipleAIApp/r.py *)

Module RunScript.

Definition separator : string := "--".

(** Lines 14-24: split [sys.argv] at the first separator.  [index] cannot
    fail behind the membership test; the branch is kept as the
    [ValueError] Python would raise. *)
Definition split_args (argv : list string)
  : res (list string * list string) :=
  if contains separator argv then
    match index separator argv with
    | Some dash_index =>
        Ret (slice argv 1 dash_index, slice_from argv (dash_index + 1)%nat)
    | None => Raise ValueError
    end
  else Ret (slice_from argv 1, []).

Definition dotnet_run_prefix : list string :=
  ["dotnet"; "run"; "--project"; "MultipleAIApp/MultipleAIApp.csproj";
   "--framework"; "net8.0-desktop"].

(** Lines 31-41. *)
Definition build_cmd (script_args app_args : list string) : list string :=
  let cmd := dotnet_run_prefix in
  let cmd := if truthy script_args then (cmd ++ script_args)%list else cmd in
  let cmd := if truthy app_args then ((cmd ++ [separator]) ++ app_args)%list
             else cmd in
  cmd.

(** Outcome of [process.wait()] and of [process.wait(timeout=5)]. *)
Inductive wait_outcome : Type :=
| WExit (returncode : Z)
| WInterrupt.

Inductive grace_outcome : Type :=
| GExit (returncode : Z)
| GTimeout
| GInterrupt.

(** What the outside decides during one execution of the script. *)
Record world : Type := {
  chdir_raises : option fault;
  popen_raises : list string -> option fault;
  wait_result : wait_outcome;
  grace_result : grace_outcome
}.

Section Script.
Variable w : world.

Definition os_chdir : M unit :=
  match chdir_raises w with
  | Some f => raise (fault_exn f)
  | None => emit Chdir
  end.

Definition subprocess_Popen (cmd : list string) : M unit :=
  match popen_raises w cmd with
  | Some f => raise (fault_exn f)
  | None => emit (Popen cmd)
  end.

Definition process_wait : M Z :=
  emit (Wait None);;
  match wait_result w with
  | WExit rc => ret rc
  | WInterrupt => raise KeyboardInterrupt
  end.

Definition process_wait_timeout (t : Z) : M Z :=
  emit (Wait (Some t));;
  match grace_result w with
  | GExit rc => ret rc
  | GTimeout => raise TimeoutExpired
  | GInterrupt => raise KeyboardInterrupt
  end.

(** Lines 55-63, the handler of an interrupt during [process.wait()]. *)
Definition stop_application : M unit :=
  print (LF ++ "Stopping application...");;
  emit Terminate;;
  try_except (_ <- process_wait_timeout 5;; ret tt)
    (fun e => match e with
              | TimeoutExpired =>
                  Some (print "Force killing application...";; emit Kill)
              | _ => None
              end);;
  sys_exit 0.

Definition main (argv : list string) : M unit :=
  match split_args argv with
  | Raise e => raise e
  | Ret (script_args, app_args) =>
      try_except
        (os_chdir;;
         let cmd := build_cmd script_args app_args in
         print ("Running: " ++ String.concat " " cmd);;
         print "Application starting... (Press Ctrl+C to stop)";;
         subprocess_Popen cmd;;
         try_except
           (result <- process_wait;;
            if negb (result =? 0) then
              print ("Application exited with code " ++ str_int result);;
              sys_exit result
            else ret tt)
           (fun e => match e with
                     | KeyboardInterrupt => Some stop_application
                     | _ => None
                     end))
        (fun e => match e with
                  | CalledProcessError _ rc _ _ =>
                      Some (print ("Command failed with exit code "
                                     ++ str_int rc);;
                            sys_exit rc)
                  | KeyboardInterrupt =>
                      Some (print (LF ++ "Application interrupted by user");;
                            sys_exit 1)
                  | e => if is_Exception e
                         then Some (print ("Error: " ++ str_exn e);;
                                    sys_exit 1)
                         else None
                  end)
  end.

End Script.

(** The command the script hands to [Popen] for a given [sys.argv]. *)
Definition constructed_cmd (argv : list string) : option (list string) :=
  match split_args argv with
  | Ret (script_args, app_args) => Some (build_cmd script_args app_args)
  | Raise _ => None
  end.

(** [i] is the position of the first separator of [tokens]. *)
Definition first_separator_at (tokens : list string) (i : nat) : Prop :=
  nth_error tokens i = Some separator
  /\ forall j, (j < i)%nat -> nth_error tokens j <> Some separator.

(** Number of separator tokens in a command. *)
Definition separators (cmd : list string) : nat :=
  count_occ string_dec cmd separator.

End RunScript.

(** ** MultipleAIApp/b.py *)

Module BuildApp.

Record args : Type := {
  clean : bool;
  run : bool
}.

Record world : Type := {
  chdir_raises : option fault;
  proc : list string -> outcome
}.

Section Script.
Variable w : world.

Definition os_chdir : M unit :=
  match chdir_raises w with
  | Some f => raise (fault_exn f)
  | None => emit Chdir
  end.

(** [subprocess.run(cmd, check=True)]: the child's output is not
    captured, so the exception carries none. *)
Definition subprocess_run_check (cmd : list string) : M Z :=
  emit (Run cmd);;
  match proc w cmd with
  | Exited rc _ _ =>
      if negb (rc =? 0)
      then raise (CalledProcessError cmd rc EmptyString EmptyString)
      else ret rc
  | SpawnError msg => raise (OSError msg)
  | Interrupted => raise KeyboardInterrupt
  end.

Definition clean_cmd : list string := ["dotnet"; "clean"; "MultipleAIApp.sln"].
Definition build_cmd : list string := ["dotnet"; "build"; "MultipleAIApp.sln"].
Definition run_cmd : list string :=
  ["dotnet"; "run"; "--project"; "MultipleAIApp/MultipleAIApp.csproj";
   "--framework"; "net8.0-desktop"].

(** Lines 19-44: [main] from the point where [parser.parse_args()]
    (line 17) has returned the flags [a]; the exits of the parser itself
    (status 0 on [--help], 2 on a command line it refuses) come before. *)
Definition main (a : args) : M unit :=
  try_except
    (os_chdir;;
     (if clean a then
        print "Cleaning solution...";;
        _ <- subprocess_run_check clean_cmd;; ret tt
      else ret tt);;
     print "Building solution...";;
     _ <- subprocess_run_check build_cmd;;
     print "Build completed successfully!";;
     if run a then
       print "Running application...";;
       _ <- subprocess_run_check run_cmd;; ret tt
     else ret tt)
    (fun e => match e with
              | CalledProcessError _ rc _ _ =>
                  Some (print ("Command failed with exit code "
                                 ++ str_int rc);;
                        sys_exit rc)
              | KeyboardInterrupt =>
                  Some (print (LF ++ "Build interrupted by user");;
                        sys_exit 1)
              | e => if is_Exception e
                     then Some (print ("Error: " ++ str_exn e);;
                                sys_exit 1)
                     else None
              end).

End Script.

End BuildApp.

(** ** build.py *)

Module Build.

Record args : Type := {
  clean : bool;
  configuration : string;
  test : bool;
  run : option string;
  skip_build : bool
}.

(** [subprocess.CompletedProcess]; a caught [CalledProcessError] offers
    the same three attributes. *)
Record completed : Type := {
  returncode : Z;
  stdout : string;
  stderr : string
}.

(** The outside of one execution.  The file system answers are those of
    the moment the script asks; the children the script starts leave the
    solution and project files where they are. *)
Record world : Type := {
  chdir_raises : option string;
  proc : list string -> outcome;
  path_exists : string -> bool;
  glob : string -> list string;
  is_dir : string -> bool
}.

Definition clean_dirs : list string :=
  ["bin"; "obj"; "*/bin"; "*/obj"; "*/*/bin"; "*/*/obj";
   "MultiLLM.Core/bin"; "MultiLLM.Core/obj";
   "MultiLLM.Core.Tests/bin"; "MultiLLM.Core.Tests/obj";
   "MultiLLM.Demo/bin"; "MultiLLM.Demo/obj";
   "MultipleAIApp/MultipleAIApp/bin"; "MultipleAIApp/MultipleAIApp/obj"].

Definition solutions : list string :=
  ["MultiLLM.sln"; "MultipleAIApp/MultipleAIApp.sln"].

Definition test_projects : list string :=
  ["MultiLLM.Core.Tests/MultiLLM.Core.Tests.csproj"].

Definition runnable_projects : list (string * string) :=
  [("demo", "MultiLLM.Demo/MultiLLM.Demo.csproj");
   ("app", "MultipleAIApp/MultipleAIApp/MultipleAIApp.csproj")].

(** [d.get(k)] on a dict kept as an association list. *)
Fixpoint dict_get (d : list (string * string)) (k : string) : option string :=
  match d with
  | [] => None
  | (k', v) :: d' => if String.eqb k' k then Some v else dict_get d' k
  end.

(** [d[k]] for a key the literal dict above holds. *)
Definition dict_at (d : list (string * string)) (k : string) : string :=
  match dict_get d k with Some v => v | None => EmptyString end.

Definition clean_cmd (solution : string) : list string :=
  ["dotnet"; "clean"; solution].
Definition build_cmd (solution configuration : string) : list string :=
  ["dotnet"; "build"; solution; "--configuration"; configuration;
   "--no-restore"].
Definition test_cmd (test_project : string) : list string :=
  ["dotnet"; "test"; test_project; "--no-build"; "--verbosity"; "normal"].
Definition run_cmd (project_to_run : string) : list string :=
  ["dotnet"; "run"; "--project"; project_to_run; "--no-build"].
Definition version_cmd : list string := ["dotnet"; "--version"].

Section Script.
Variable w : world.

Definition os_chdir : M unit :=
  match chdir_raises w with
  | Some msg => raise (OSError msg)
  | None => emit Chdir
  end.

(** [subprocess.run(cmd, check=check, capture_output=True, text=True)]
    for a command given as a list. *)
Definition subprocess_run (cmd : list string) (check : bool) : M completed :=
  emit (Run cmd);;
  match proc w cmd with
  | Exited rc out err =>
      if check && negb (rc =? 0)
      then raise (CalledProcessError cmd rc out err)
      else ret {| returncode := rc; stdout := out; stderr := err |}
  | SpawnError msg => raise (OSError msg)
  | Interrupted => raise KeyboardInterrupt
  end.

(** Lines 15-38.  Every caller passes a list, so the [str] branch of the
    two [isinstance] tests is left out. *)
Definition run_command (cmd : list string) (check : bool) : M completed :=
  print ("Running: " ++ String.concat " " cmd);;
  try_except
    (result <- subprocess_run cmd check;;
     when (nonempty (stdout result)) (emit (Echo (stdout result)));;
     when (nonempty (stderr result) && (returncode result =? 0))
       (emit (Echo (stderr result)));;
     ret result)
    (fun e => match e with
              | CalledProcessError _ rc out err =>
                  Some (print ("Error running command: " ++ str_exn e);;
                        when (nonempty err) (print ("stderr: " ++ err));;
                        let e_as_result :=
                          {| returncode := rc; stdout := out; stderr := err |}
                        in
                        if check then ret e_as_result else ret e_as_result)
              | _ => None
              end).

(** Lines 41-80. *)
Definition clean_project : M unit :=
  print "Cleaning project...";;
  for_each clean_dirs (fun pattern =>
    for_each (glob w pattern) (fun path =>
      if is_dir w path then
        print ("Removing " ++ path);;
        emit (Rmtree path)
      else ret tt));;
  for_each solutions (fun solution =>
    if path_exists w solution then
      print ("Cleaning " ++ solution ++ "...");;
      _ <- run_command (clean_cmd solution) false;;
      ret tt
    else ret tt);;
  print "Clean complete!".

(** Lines 94-109, the body of the loop of [build_project]. *)
Definition build_solution (configuration : string) (build_success : bool)
    (solution : string) : M bool :=
  if path_exists w solution then
    print ("Building " ++ solution ++ "...");;
    result <- run_command (build_cmd solution configuration) false;;
    if negb (returncode result =? 0) then
      print ("Build failed for " ++ solution);;
      ret false
    else
      print ("Build successful for " ++ solution);;
      ret build_success
  else
    print ("Solution " ++ solution ++ " not found, skipping...");;
    ret build_success.

(** Lines 83-111. *)
Definition build_project (configuration : string) : M bool :=
  print ("Building project in " ++ configuration ++ " configuration...");;
  for_fold solutions true (build_solution configuration).

(** Lines 124-139, the body of the loop of [run_tests]. *)
Definition test_one (test_success : bool) (test_project : string) : M bool :=
  if path_exists w test_project then
    print ("Running tests for " ++ test_project ++ "...");;
    result <- run_command (test_cmd test_project) false;;
    if negb (returncode result =? 0) then
      print ("Tests failed for " ++ test_project);;
      ret false
    else
      print ("Tests passed for " ++ test_project);;
      ret test_success
  else
    print ("Test project " ++ test_project ++ " not found, skipping...");;
    ret test_success.

(** Lines 114-141. *)
Definition run_tests : M bool :=
  print "Running tests...";;
  for_fold test_projects true test_one.

(** Lines 148-166: the project to run and the name printed for it, or
    [None] where the function has returned [False]. *)
Definition select_project (project_name : option string)
  : M (option (string * string)) :=
  let named :=
    match project_name with
    | Some name =>
        if nonempty name then
          match dict_get runnable_projects name with
          | Some project_to_run => Some (project_to_run, name)
          | None => None
          end
        else None
    | None => None
    end in
  match named with
  | Some sel => ret (Some sel)
  | None =>
      if path_exists w (dict_at runnable_projects "demo") then
        ret (Some (dict_at runnable_projects "demo", "demo"))
      else if path_exists w (dict_at runnable_projects "app") then
        ret (Some (dict_at runnable_projects "app", "app"))
      else
        print "No runnable projects found!";;
        ret None
  end.

(** Lines 144-179. *)
Definition run_application (project_name : option string) : M bool :=
  print "Running application...";;
  sel <- select_project project_name;;
  match sel with
  | None => ret false
  | Some (project_to_run, project_name) =>
      if path_exists w project_to_run then
        print ("Running " ++ project_name ++ ": " ++ project_to_run);;
        result <- run_command (run_cmd project_to_run) false;;
        ret (returncode result =? 0)
      else
        print ("Project " ++ project_to_run ++ " not found!");;
        ret false
  end.

(** Truth value of [args.run]: [None] and the empty string are false. *)
Definition run_truthy (a : args) : bool :=
  match run a with
  | Some s => nonempty s
  | None => false
  end.

Definition run_requested (a : args) : bool :=
  match run a with
  | Some _ => true
  | None => false
  end.

Definition mark (ok : bool) : string := if ok then "✓" else "✗".

(** Lines 244-251. *)
Definition print_summary (a : args)
    (build_success test_success run_success : bool) : M unit :=
  print (LF ++ "=== Build Summary ===");;
  when (negb (skip_build a)) (print ("Build: " ++ mark build_success));;
  when (test a) (print ("Tests: " ++ mark test_success));;
  when (run_requested a) (print ("Run: " ++ mark run_success)).

(** Lines 206-255, the body of the [try]. *)
Definition phases (a : args) : M unit :=
  result <- run_command version_cmd false;;
  (if negb (returncode result =? 0) then
     print "ERROR: .NET SDK not found. Please install .NET 8 SDK.";;
     sys_exit 1
   else ret tt);;
  when (clean a) clean_project;;
  let build_success := true in
  let test_success := true in
  let run_success := true in
  build_success <-
    (if negb (skip_build a) then
       build_success <- build_project (configuration a);;
       (if negb build_success then
          print "Build failed!";;
          if negb (run_truthy a) then sys_exit 1 else ret tt
        else ret tt);;
       ret build_success
     else ret build_success);;
  test_success <-
    (if test a && build_success then
       test_success <- run_tests;;
       (if negb test_success then
          print "Tests failed!";;
          if negb (run_truthy a) then sys_exit 1 else ret tt
        else ret tt);;
       ret test_success
     else ret test_success);;
  run_success <-
    (if run_requested a && build_success then
       let project_name := if run_truthy a then run a else None in
       run_success <- run_application project_name;;
       (if negb run_success then print "Failed to run application!"
        else ret tt);;
       ret run_success
     else ret run_success);;
  print_summary a build_success test_success run_success;;
  if negb build_success || (test a && negb test_success)
  then sys_exit 1
  else ret tt.

(** Lines 200-262: [main] from the point where [parser.parse_args()]
    (line 198) has returned the flags [a].  The parser itself is not
    part of this definition: on [--help] it leaves with status 0 and on
    a command line it refuses with status 2, both before line 200. *)
Definition main (a : args) : M unit :=
  print "=== CsharpUAI Build Script ===";;
  os_chdir;;
  try_except (phases a)
    (fun e => match e with
              | KeyboardInterrupt =>
                  Some (print (LF ++ "Build interrupted by user.");;
                        sys_exit 1)
              | e => if is_Exception e
                     then Some (print ("Build failed: " ++ str_exn e);;
                                sys_exit 1)
                     else None
              end).

End Script.

(** *** Vocabulary of the properties *)

(** The phase a child command belongs to is its [dotnet] sub-command. *)
Definition subcommand_is (name : string) (cmd : list string) : bool :=
  match cmd with
  | _ :: sub :: _ => String.eqb sub name
  | _ => false
  end.
Definition is_build_cmd : list string -> bool := subcommand_is "build".
Definition is_test_cmd : list string -> bool := subcommand_is "test".
Definition is_run_cmd : list string -> bool := subcommand_is "run".

(** Events by which a phase shows that it was entered: the message its
    function prints first, and any child of its sub-command. *)
Definition test_attempt (ev : event) : bool :=
  match ev with
  | Say s => String.eqb s "Running tests..."
  | Run cmd => is_test_cmd cmd
  | _ => false
  end.

Definition run_attempt (ev : event) : bool :=
  match ev with
  | Say s => String.eqb s "Running application..."
  | Run cmd => is_run_cmd cmd
  | _ => false
  end.

(** A line of the wrapper that starts with the given summary label. *)
Definition summary_line (label : string) (ev : event) : bool :=
  match ev with
  | Say s => String.prefix label s
  | _ => false
  end.

(** Anything of the summary: its header or one of its three lines. *)
Definition summary_event (ev : event) : bool :=
  match ev with
  | Say s => String.eqb s (LF ++ "=== Build Summary ===")
  | _ => false
  end
  || summary_line "Build: " ev || summary_line "Tests: " ev
  || summary_line "Run: " ev.

(** Entering the test or the run phase. *)
Definition later_attempt (ev : event) : bool :=
  test_attempt ev || run_attempt ev.

(** A child that ran to its end, and one that ended with a failure code. *)
Definition child_exited (w : world) (cmd : list string) : Prop :=
  exists rc out err, proc w cmd = Exited rc out err.
Definition child_failed (w : world) (cmd : list string) : Prop :=
  exists rc out err, proc w cmd = Exited rc out err /\ rc <> 0.

(** Every child the script may start is started and runs to its end. *)
Definition all_children_exit (w : world) : Prop :=
  forall cmd, child_exited w cmd.

(** Two outsides that differ at most in the children selected by [skip]. *)
Definition same_outside_except (skip : list string -> bool) (w w' : world)
  : Prop :=
  chdir_raises w = chdir_raises w'
  /\ path_exists w = path_exists w'
  /\ glob w = glob w'
  /\ is_dir w = is_dir w'
  /\ forall cmd, skip cmd = false -> proc w cmd = proc w' cmd.

(** How one round of a phase loop ends: [present] tells whether the
    solution or project file exists, [o] how the child started for it
    ends; [b0] is the flag before the round. *)
Definition round_result (b0 : bool) (present : bool) (o : outcome)
  : res bool :=
  if present then
    match o with
    | Exited rc _ _ => Ret (if rc =? 0 then b0 else false)
    | SpawnError msg => Raise (OSError msg)
    | Interrupted => Raise KeyboardInterrupt
    end
  else Ret b0.

(** The phase results of an invocation, as [main] holds them in
    [build_success], [test_success] and [run_success] when the phase is
    executed. *)
Definition build_failed (w : world) (a : args) : Prop :=
  skip_build a = false /\ fst (build_project w (configuration a)) = Ret false.
Definition build_passed_or_skipped (w : world) (a : args) : Prop :=
  skip_build a = true \/ fst (build_project w (configuration a)) = Ret true.
Definition tests_failed (w : world) (a : args) : Prop :=
  test a = true /\ build_passed_or_skipped w a /\ fst (run_tests w) = Ret false.
Definition run_failed (w : world) (a : args) : Prop :=
  run_requested a = true /\ build_passed_or_skipped w a
  /\ fst (run_application w (if run_truthy a then run a else None))
     = Ret false.

(** The clean phase keeps no result; its failure can only be read off
    its children. *)
Definition clean_failed (w : world) (a : args) : Prop :=
  clean a = true
  /\ exists s, In s solutions /\ path_exists w s = true
               /\ child_failed w (clean_cmd s).

(** The exit rule in the words of the specification: the status is not 0
    exactly when some phase that was not skipped failed. *)
Definition exit_is_or_of_phase_failures (w : world) (a : args) : Prop :=
  exit_status (main w a) <> Some 0
  <-> clean_failed w a \/ build_failed w a \/ tests_failed w a
      \/ run_failed w a.

End Build.

(** ** Concrete invocations of build.py *)

Module Scenarios.
Import Build.

Definition default_args : args :=
  {| clean := false; configuration := "Release"; test := false;
     run := None; skip_build := false |}.

Definition files : list string :=
  ["MultiLLM.sln"; "MultiLLM.Demo/MultiLLM.Demo.csproj";
   "MultiLLM.Core.Tests/MultiLLM.Core.Tests.csproj"].

(** A checkout with the files above, in which the children selected by
    [fails] end as [bad] and all the others exit with 0. *)
Definition outside (fails : list string -> bool) (bad : outcome) : world :=
  {| chdir_raises := None;
     proc := fun cmd =>
       if fails cmd then bad else Exited 0 EmptyString EmptyString;
     path_exists := fun p => existsb (String.eqb p) files;
     glob := fun _ => [];
     is_dir := fun _ => false |}.

(** [dotnet --version] exits with 1. *)
Definition sdk_check_fails : world :=
  outside (subcommand_is "--version") (Exited 1 EmptyString EmptyString).

(** [--clean --skip-build], and [dotnet clean] exits with 1. *)
Definition clean_only_args : args :=
  {| clean := true; configuration := "Release"; test := false;
     run := None; skip_build := true |}.
Definition clean_fails : world :=
  outside (subcommand_is "clean") (Exited 1 EmptyString EmptyString).

(** [--run demo], and the application exits with 3. *)
Definition run_demo_args : args :=
  {| clean := false; configuration := "Release"; test := false;
     run := Some "demo"; skip_build := false |}.
Definition run_fails : world :=
  outside is_run_cmd (Exited 3 EmptyString EmptyString).

(** [--test --run demo], and [dotnet build] exits with 1. *)
Definition test_run_args : args :=
  {| clean := false; configuration := "Release"; test := true;
     run := Some "demo"; skip_build := false |}.
Definition build_fails : world :=
  outside is_build_cmd (Exited 1 EmptyString "error CS1002").

(** [dotnet build] cannot be started. *)
Definition spawn_message : string :=
  "[Errno 2] No such file or directory: 'dotnet'".
Definition build_cannot_spawn : world :=
  outside is_build_cmd (SpawnError spawn_message).

(** [--skip-build --test], with tests that fail. *)
Definition skip_build_args : args :=
  {| clean := false; configuration := "Release"; test := true;
     run := None; skip_build := true |}.
Definition tests_fail : world :=
  outside is_test_cmd (Exited 1 EmptyString EmptyString).
Definition build_and_tests_fail : world :=
  outside (fun cmd => is_build_cmd cmd || is_test_cmd cmd)
    (Exited 1 EmptyString EmptyString).

(** b.py with [--clean]: cleaning succeeds and [dotnet build] exits
    with 2. *)
Definition app_clean_args : BuildApp.args :=
  {| BuildApp.clean := true; BuildApp.run := false |}.
Definition app_build_fails : BuildApp.world :=
  {| BuildApp.chdir_raises := None;
     BuildApp.proc := fun cmd =>
       if is_build_cmd cmd then Exited 2 EmptyString EmptyString
       else Exited 0 EmptyString EmptyString |}.

(** r.py: the application starts, [process.wait()] is interrupted, and
    the wait of 5 seconds that follows [terminate] is interrupted too. *)
Definition interrupted_twice : RunScript.world :=
  {| RunScript.chdir_raises := None;
     RunScript.popen_raises := fun _ => None;
     RunScript.wait_result := RunScript.WInterrupt;
     RunScript.grace_result := RunScript.GInterrupt |}.

End Scenarios.

(** ** setup.py *)

Module Setup.

Record args : Type := {
  skip_submodules : bool;
  skip_restore : bool
}.

Definition solutions : list string :=
  ["MultiLLM.sln"; "MultipleAIApp/MultipleAIApp.sln"].

Definition version_cmd : list string := ["dotnet"; "--version"].
Definition submodule_init_cmd : list string := ["git"; "submodule"; "init"].
Definition submodule_update_cmd : list string :=
  ["git"; "submodule"; "update"; "--recursive"].
Definition restore_cmd (solution : string) : list string :=
  ["dotnet"; "restore"; solution].

Definition serilog_path : string := "MultipleAIApp/serilog".

(** [str(p.joinpath(name))] for relative paths without dots. *)
Definition joinpath (p name : string) : string := p ++ "/" ++ name.

Section Script.
Variable w : Build.world.

Definition os_chdir : M unit :=
  match Build.chdir_raises w with
  | Some msg => raise (OSError msg)
  | None => emit Chdir
  end.

(** [subprocess.run(cmd, check=check, capture_output=True, text=True)]
    for a command given as a list. *)
Definition subprocess_run (cmd : list string) (check : bool)
  : M Build.completed :=
  emit (Run cmd);;
  match Build.proc w cmd with
  | Exited rc out err =>
      if check && negb (rc =? 0)
      then raise (CalledProcessError cmd rc out err)
      else ret {| Build.returncode := rc; Build.stdout := out;
                  Build.stderr := err |}
  | SpawnError msg => raise (OSError msg)
  | Interrupted => raise KeyboardInterrupt
  end.

(** Lines 14-35.  Unlike the function of the same name in build.py, this
    one prints no captured stderr after a success and ends the script
    with [sys.exit(1)] when a checked command fails. *)
Definition run_command (cmd : list string) (check : bool)
  : M Build.completed :=
  print ("Running: " ++ String.concat " " cmd);;
  try_except
    (result <- subprocess_run cmd check;;
     when (nonempty (Build.stdout result))
       (emit (Echo (Build.stdout result)));;
     ret result)
    (fun e => match e with
              | CalledProcessError _ rc out err =>
                  Some (print ("Error running command: " ++ str_exn e);;
                        when (nonempty err) (print ("stderr: " ++ err));;
                        if check then sys_exit 1
                        else ret {| Build.returncode := rc;
                                    Build.stdout := out;
                                    Build.stderr := err |})
              | _ => None
              end).

(** Lines 38-60. *)
Definition init_submodules : M unit :=
  print "Initializing git submodules...";;
  if negb (Build.path_exists w ".gitmodules") then
    print "No .gitmodules file found, checking for orphaned submodules...";;
    (if Build.path_exists w serilog_path
        && negb (Build.path_exists w (joinpath serilog_path ".git"))
     then
       print "Found orphaned serilog directory, removing...";;
       emit (Rmtree serilog_path)
     else ret tt);;
    print "No submodules to initialize."
  else
    _ <- run_command submodule_init_cmd true;;
    _ <- run_command submodule_update_cmd true;;
    print "Submodules initialized successfully!".

(** Lines 63-77. *)
Definition restore_packages : M unit :=
  print "Restoring NuGet packages...";;
  for_each solutions (fun solution =>
    if Build.path_exists w solution then
      print ("Restoring packages for " ++ solution ++ "...");;
      _ <- run_command (restore_cmd solution) true;;
      ret tt
    else
      print ("Solution " ++ solution ++ " not found, skipping...")).

(** Lines 80-92. *)
Definition setup_development_environment : M unit :=
  print "Setting up development environment...";;
  result <- run_command version_cmd false;;
  (if negb (Build.returncode result =? 0) then
     print "ERROR: .NET SDK not found. Please install .NET 8 SDK.";;
     print "Download from: https://dotnet.microsoft.com/download";;
     sys_exit 1
   else ret tt);;
  print "Development environment setup complete!".

Definition setup_complete : string := LF ++ "=== Setup Complete! ===".

(** Lines 104-132: [main] from the point where [parser.parse_args()]
    (line 102) has returned the flags [a].  The parser itself is not
    part of this definition: on [--help] it leaves with status 0 and on
    a command line it refuses with status 2, both before line 104. *)
Definition main (a : args) : M unit :=
  print "=== CsharpUAI Project Setup ===";;
  os_chdir;;
  try_except
    (setup_development_environment;;
     when (negb (skip_submodules a)) init_submodules;;
     when (negb (skip_restore a)) restore_packages;;
     print setup_complete;;
     print "You can now build the project using:";;
     print "  python build.py";;
     print "  python build.py --clean";;
     print "  python build.py --run")
    (fun e => match e with
              | KeyboardInterrupt =>
                  Some (print (LF ++ "Setup interrupted by user.");;
                        sys_exit 1)
              | e => if is_Exception e
                     then Some (print ("Setup failed: " ++ str_exn e);;
                                sys_exit 1)
                     else None
              end).

End Script.

End Setup.

(** ** Vocabulary of the further properties *)

Module Further.

(** The commands handed to [subprocess.run], in the order of the calls. *)
Fixpoint runs (l : list event) : list (list string) :=
  match l with
  | [] => []
  | Run cmd :: l' => cmd :: runs l'
  | _ :: l' => runs l'
  end.

(** The directories handed to [shutil.rmtree], in the order of the calls. *)
Fixpoint removals (l : list event) : list string :=
  match l with
  | [] => []
  | Rmtree path :: l' => path :: removals l'
  | _ :: l' => removals l'
  end.

(** A child that ran and exited with 0. *)
Definition exited_ok (proc : list string -> outcome) (cmd : list string)
  : Prop :=
  exists out err, proc cmd = Exited 0 out err.

(** An exception that makes the interpreter leave with a status other
    than 0. *)
Definition nonzero_exit (e : exn) : Prop :=
  match e with
  | SystemExit c => c <> 0
  | CalledProcessError _ c _ _ => c <> 0
  | _ => True
  end.

(** A script that stops at the first command that does not succeed:
    every command it started, but possibly the last one, exited with 0,
    and all of them did when the computation returns. *)
Definition fail_fast {A} (proc : list string -> outcome) (m : M A) : Prop :=
  match fst m with
  | Ret _ => Forall (exited_ok proc) (runs (log m))
  | Raise e =>
      nonzero_exit e
      /\ Forall (exited_ok proc) (removelast (runs (log m)))
  end.

(** The line by which setup.py reports that it is done. *)
Definition is_setup_complete (ev : event) : bool :=
  match ev with
  | Say s => String.eqb s Setup.setup_complete
  | _ => false
  end.

(** A computation that ends by returning, by [sys.exit(1)] or by a fault
    of the outside. *)
Definition ends_cleanly {A} (m : M A) : Prop :=
  match fst m with
  | Ret _ => True
  | Raise e => e = SystemExit 1 \/ is_fault e = true
  end.

(** What setup.py may do to the outside: it starts the SDK check, the
    two [git submodule] commands when submodules are not skipped and
    [.gitmodules] exists, and [dotnet restore] for the solutions that
    exist when restoring is not skipped; it removes nothing but an
    orphaned serilog directory. *)
Definition setup_event_allowed (w : Build.world) (a : Setup.args)
    (ev : event) : Prop :=
  match ev with
  | Run cmd =>
      cmd = Setup.version_cmd
      \/ (Setup.skip_submodules a = false
          /\ Build.path_exists w ".gitmodules" = true
          /\ (cmd = Setup.submodule_init_cmd
              \/ cmd = Setup.submodule_update_cmd))
      \/ (Setup.skip_restore a = false
          /\ exists s, In s Setup.solutions
                       /\ Build.path_exists w s = true
                       /\ cmd = Setup.restore_cmd s)
  | Rmtree path =>
      path = Setup.serilog_path
      /\ Setup.skip_submodules a = false
      /\ Build.path_exists w ".gitmodules" = false
      /\ Build.path_exists w Setup.serilog_path = true
      /\ Build.path_exists w (Setup.joinpath Setup.serilog_path ".git")
         = false
  | _ => True
  end.

(** [l] is an initial segment of [full]. *)
Definition initial_segment {A} (l full : list A) : Prop :=
  exists k, l = firstn k full.

(** Events of cleaning, and the start of a build, test or run child. *)
Definition is_clean_event (ev : event) : bool :=
  match ev with
  | Rmtree _ => true
  | Run cmd => Build.subcommand_is "clean" cmd
  | _ => false
  end.

Definition is_later_child (ev : event) : bool :=
  match ev with
  | Run cmd => Build.is_build_cmd cmd || Build.is_test_cmd cmd
               || Build.is_run_cmd cmd
  | _ => false
  end.

(** No event of cleaning follows the start of a build, test or run
    child. *)
Definition clean_comes_first (l : list event) : Prop :=
  forall l1 ev l2,
    l = (l1 ++ ev :: l2)%list -> is_later_child ev = true ->
    Forall (fun ev' => is_clean_event ev' = false) l2.

(** What a phase may echo of the child started by [cmd]: its stdout, and
    its stderr when it exited with 0. *)
Definition echo_of (proc : list string -> outcome) (cmd : list string)
    (s : string) : Prop :=
  exists rc out err,
    proc cmd = Exited rc out err /\ (s = out \/ (s = err /\ rc = 0)).

(** What build.py may remove: with [--clean] only, and only directories
    that one of the patterns of [clean_dirs] matches. *)
Definition removal_allowed (w : Build.world) (a : Build.args) (ev : event)
  : Prop :=
  match ev with
  | Rmtree p =>
      Build.clean a = true /\ Build.is_dir w p = true
      /\ exists pattern,
           In pattern Build.clean_dirs /\ In p (Build.glob w pattern)
  | _ => True
  end.

(** What build.py may echo: output of one of the children. *)
Definition echo_allowed (w : Build.world) (ev : event) : Prop :=
  match ev with
  | Echo s => exists cmd, echo_of (Build.proc w) cmd s
  | _ => True
  end.

End Further.

(** ** Further concrete invocations *)

Module FurtherCases.

(** An outside in which every child exits with 0 and writes nothing, and
    in which exactly the paths of [present] exist. *)
Definition calm (present : list string) : Build.world :=
  {| Build.chdir_raises := None;
     Build.proc := fun _ => Exited 0 EmptyString EmptyString;
     Build.path_exists := fun p => existsb (String.eqb p) present;
     Build.glob := fun _ => [];
     Build.is_dir := fun _ => false |}.

(** setup.py in a checkout with [.gitmodules], and in one with an
    orphaned serilog directory. *)
Definition setup_args : Setup.args :=
  {| Setup.skip_submodules := false; Setup.skip_restore := false |}.
Definition with_submodules : Build.world := calm [".gitmodules"].
Definition with_orphan : Build.world := calm [Setup.serilog_path].

(** build.py where both solutions exist and [dotnet build] fails. *)
Definition both_solutions_fail : Build.world :=
  {| Build.chdir_raises := None;
     Build.proc := fun cmd =>
       if Build.is_build_cmd cmd then Exited 1 EmptyString EmptyString
       else Exited 0 EmptyString EmptyString;
     Build.path_exists := fun p => existsb (String.eqb p) Build.solutions;
     Build.glob := fun _ => [];
     Build.is_dir := fun _ => false |}.

(** build.py [--clean] where [bin] is a directory of the checkout. *)
Definition clean_args : Build.args :=
  {| Build.clean := true; Build.configuration := "Release";
     Build.test := false; Build.run := None; Build.skip_build := false |}.
Definition with_bin : Build.world :=
  {| Build.chdir_raises := None;
     Build.proc := fun _ => Exited 0 EmptyString EmptyString;
     Build.path_exists := fun p => existsb (String.eqb p) Scenarios.files;
     Build.glob := fun pattern =>
       if String.eqb pattern "bin" then ["bin"] else [];
     Build.is_dir := fun _ => true |}.

(** Every child exits with 1, having written to stdout and to stderr. *)
Definition noisy_failure : Build.world :=
  {| Build.chdir_raises := None;
     Build.proc := fun _ => Exited 1 "CS1002" "MSB1009";
     Build.path_exists := fun _ => true;
     Build.glob := fun _ => [];
     Build.is_dir := fun _ => false |}.

(** build.py where [dotnet --version] prints the version. *)
Definition sdk_prints_version : Build.world :=
  {| Build.chdir_raises := None;
     Build.proc := fun cmd =>
       if Build.subcommand_is "--version" cmd
       then Exited 0 "8.0.100" EmptyString
       else Exited 0 EmptyString EmptyString;
     Build.path_exists := fun p => existsb (String.eqb p) Scenarios.files;
     Build.glob := fun _ => [];
     Build.is_dir := fun _ => false |}.

End FurtherCases.


(** * Properties *)

(** ** Generic facts about the monad *)

Section MonadFacts.
Context {A B : Type}.

Lemma log_bind (m : M A) (f : A -> M B) :
  log (bind m f)
  = (log m ++ match fst m with Ret a => log (f a) | Raise _ => [] end)%list.
Proof.
  destruct m as [[a|e] l]; unfold log, bind; simpl.
  - destruct (f a); reflexivity.
  - now rewrite app_nil_r.
Qed.

Lemma fst_bind (m : M A) (f : A -> M B) :
  fst (bind m f)
  = match fst m with Ret a => fst (f a) | Raise e => Raise e end.
Proof.
  destruct m as [[a|e] l]; unfold bind; simpl; [destruct (f a)|]; reflexivity.
Qed.

End MonadFacts.

(** Compositional rules for [log_all], [faults_only] and [returns]. *)

Section Rules.
Variable P : event -> Prop.

Lemma log_all_ret {A} (a : A) : log_all P (ret a).
Proof. constructor. Qed.

Lemma log_all_raise {A} e : log_all P (@raise A e).
Proof. constructor. Qed.

Lemma log_all_emit ev : P ev -> log_all P (emit ev).
Proof. intros H. repeat constructor. exact H. Qed.

Lemma log_all_bind {A B} (m : M A) (f : A -> M B) :
  log_all P m -> (forall a, log_all P (f a)) -> log_all P (bind m f).
Proof.
  unfold log_all. intros Hm Hf. rewrite log_bind. apply Forall_app.
  split; [exact Hm|]. destruct (fst m); [apply Hf | constructor].
Qed.

Lemma log_all_try {A} (m : M A) h :
  log_all P m -> (forall e k, h e = Some k -> log_all P k) ->
  log_all P (try_except m h).
Proof.
  unfold log_all, log, try_except. destruct m as [[a|e] l]; simpl.
  - tauto.
  - intros Hl Hh. destruct (h e) as [k|] eqn:E; [|exact Hl].
    specialize (Hh e k E). destruct k as [r l']. simpl in *.
    apply Forall_app. now split.
Qed.

Lemma log_all_for_each {A} (l : list A) body :
  (forall x, log_all P (body x)) -> log_all P (for_each l body).
Proof.
  intros Hb. induction l as [|x l IH]; simpl.
  - apply log_all_ret.
  - apply log_all_bind; [apply Hb | intros _; exact IH].
Qed.

Lemma log_all_for_fold {A S} (l : list A) (s : S) body :
  (forall s x, log_all P (body s x)) -> log_all P (for_fold l s body).
Proof.
  intros Hb. revert s. induction l as [|x l IH]; intros s; simpl.
  - apply log_all_ret.
  - apply log_all_bind; [apply Hb | intros s'; apply IH].
Qed.

End Rules.

Lemma faults_only_ret {A} (a : A) : faults_only (ret a).
Proof. exact I. Qed.

Lemma faults_only_emit ev : faults_only (emit ev).
Proof. exact I. Qed.

Lemma faults_only_bind {A B} (m : M A) (f : A -> M B) :
  faults_only m -> (forall a, faults_only (f a)) -> faults_only (bind m f).
Proof.
  unfold faults_only. rewrite fst_bind. intros Hm Hf.
  destruct (fst m); [apply Hf | exact Hm].
Qed.

Lemma faults_only_for_each {A} (l : list A) body :
  (forall x, faults_only (body x)) -> faults_only (for_each l body).
Proof.
  intros Hb. induction l as [|x l IH]; simpl.
  - exact I.
  - apply faults_only_bind; [apply Hb | intros _; exact IH].
Qed.

Lemma faults_only_for_fold {A S} (l : list A) (s : S) body :
  (forall s x, faults_only (body s x)) -> faults_only (for_fold l s body).
Proof.
  intros Hb. revert s. induction l as [|x l IH]; intros s; simpl.
  - exact I.
  - apply faults_only_bind; [apply Hb | intros s'; apply IH].
Qed.

Lemma returns_ret {A} (a : A) : returns (ret a).
Proof. exact I. Qed.

Lemma returns_emit ev : returns (emit ev).
Proof. exact I. Qed.

Lemma returns_bind {A B} (m : M A) (f : A -> M B) :
  returns m -> (forall a, returns (f a)) -> returns (bind m f).
Proof.
  unfold returns. rewrite fst_bind. intros Hm Hf.
  destruct (fst m); [apply Hf | exact Hm].
Qed.

Lemma returns_for_each {A} (l : list A) body :
  (forall x, returns (body x)) -> returns (for_each l body).
Proof.
  intros Hb. induction l as [|x l IH]; simpl.
  - exact I.
  - apply returns_bind; [apply Hb | intros _; exact IH].
Qed.

Lemma returns_for_fold {A S} (l : list A) (s : S) body :
  (forall s x, returns (body s x)) -> returns (for_fold l s body).
Proof.
  intros Hb. revert s. induction l as [|x l IH]; intros s; simpl.
  - exact I.
  - apply returns_bind; [apply Hb | intros s'; apply IH].
Qed.

Lemma returns_inv {A} (m : M A) : returns m -> exists a l, m = (Ret a, l).
Proof.
  unfold returns. destruct m as [[a|e] l]; simpl; [eauto | tauto].
Qed.

(** ** r.py: splitting and reconstruction *)

Module RunScriptFacts.
Import RunScript.

Lemma contains_In x l : contains x l = true <-> In x l.
Proof.
  unfold contains. rewrite existsb_exists. split.
  - intros (y & Hy & E). apply String.eqb_eq in E. now subst.
  - intros H. exists x. split; [assumption | apply String.eqb_refl].
Qed.

Lemma index_first_separator l i :
  index separator l = Some i <-> first_separator_at l i.
Proof.
  revert i. induction l as [|y l IH]; intros i; simpl.
  - split; [discriminate|]. intros [H _]. now destruct i.
  - destruct (String.eqb y separator) eqn:E.
    + apply String.eqb_eq in E. subst y. split.
      * intros [= <-]. split; [reflexivity | intros j Hj; lia].
      * intros [Hi Hlt]. destruct i as [|i]; [reflexivity|].
        exfalso. apply (Hlt O); [lia | reflexivity].
    + apply String.eqb_neq in E. split.
      * intros H. destruct i as [|i].
        { destruct (index separator l); discriminate. }
        assert (Hk : index separator l = Some i).
        { destruct (index separator l); simpl in H; congruence. }
        apply IH in Hk. destruct Hk as [Hk Hlt].
        split; [exact Hk|]. intros [|j] Hj; simpl.
        -- congruence.
        -- apply Hlt. lia.
      * intros [Hi Hlt]. destruct i as [|i]; simpl in Hi; [congruence|].
        assert (Hk : first_separator_at l i).
        { split; [exact Hi|]. intros j Hj. apply (Hlt (S j)). lia. }
        apply IH in Hk. now rewrite Hk.
Qed.

Lemma index_None_not_In l : index separator l = None <-> ~ In separator l.
Proof.
  induction l as [|y l IH]; simpl.
  - tauto.
  - destruct (String.eqb y separator) eqn:E.
    + apply String.eqb_eq in E. split; [discriminate | intros H; tauto].
    + apply String.eqb_neq in E. split.
      * intros H [Hy|Hin]; [congruence|].
        destruct (index separator l); [discriminate|]. now apply IH.
      * intros H. assert (Hn : index separator l = None) by (apply IH; tauto).
        now rewrite Hn.
Qed.

Lemma index_before_not_In l i :
  index separator l = Some i -> ~ In separator (firstn i l).
Proof.
  intros H Hin. apply index_first_separator in H. destruct H as [_ Hlt].
  apply In_nth_error in Hin. destruct Hin as [j Hj].
  rewrite nth_error_firstn in Hj.
  destruct (PeanoNat.Nat.ltb j i) eqn:E; [|discriminate].
  apply PeanoNat.Nat.ltb_lt in E. exact (Hlt j E Hj).
Qed.

(** The splitter never fails. *)
Lemma split_args_total argv : exists p, split_args argv = Ret p.
Proof.
  unfold split_args. destruct (contains separator argv) eqn:E.
  - destruct (index separator argv) eqn:Ei; [eauto|].
    apply contains_In in E. apply index_None_not_In in Ei. contradiction.
  - eauto.
Qed.

Lemma split_args_cons argv0 tokens :
  argv0 <> separator ->
  split_args (argv0 :: tokens)
  = Ret (match index separator tokens with
         | Some i => (firstn i tokens, skipn (S i) tokens)
         | None => (tokens, [])
         end).
Proof.
  intros Hne. unfold split_args, contains. cbn [existsb index].
  assert (E0 : String.eqb separator argv0 = false)
    by (apply String.eqb_neq; congruence).
  assert (E1 : String.eqb argv0 separator = false)
    by (now apply String.eqb_neq).
  rewrite E0, E1. cbn [orb].
  destruct (index separator tokens) as [i|] eqn:Ei; cbn [option_map].
  - assert (Hc : existsb (String.eqb separator) tokens = true).
    { apply (contains_In separator tokens).
      apply index_first_separator in Ei. destruct Ei as [Hi _].
      eapply nth_error_In; eassumption. }
    rewrite Hc. unfold slice, slice_from. cbn [skipn Nat.sub Nat.add].
    now rewrite PeanoNat.Nat.sub_0_r, PeanoNat.Nat.add_1_r.
  - assert (Hc : existsb (String.eqb separator) tokens = false).
    { apply index_None_not_In in Ei.
      destruct (existsb (String.eqb separator) tokens) eqn:E; [|reflexivity].
      exfalso. apply Ei. now apply contains_In. }
    now rewrite Hc.
Qed.

Lemma slice_1_incl (l : list string) i x :
  In x (slice l 1 i) -> In x (firstn i l).
Proof.
  unfold slice. destruct l as [|a t]; simpl.
  - now rewrite firstn_nil.
  - destruct i as [|i]; simpl; [tauto|].
    rewrite PeanoNat.Nat.sub_0_r. tauto.
Qed.

(** The script arguments never hold a separator. *)
Lemma split_args_script_clean argv script_args app_args :
  split_args argv = Ret (script_args, app_args) ->
  ~ In separator script_args.
Proof.
  unfold split_args. destruct (contains separator argv) eqn:E.
  - destruct (index separator argv) as [i|] eqn:Ei; [|discriminate].
    intros [= <- _] Hin. apply slice_1_incl in Hin.
    exact (index_before_not_In _ _ Ei Hin).
  - intros [= <- _] Hin.
    assert (Hc : contains separator argv = true).
    { apply contains_In. unfold slice_from in Hin.
      destruct argv; simpl in Hin; [contradiction | now right]. }
    congruence.
Qed.

Lemma build_cmd_eq script_args app_args :
  build_cmd script_args app_args
  = (dotnet_run_prefix ++ script_args
       ++ (if truthy app_args then separator :: app_args else []))%list.
Proof.
  unfold build_cmd.
  destruct script_args as [|x s]; destruct app_args as [|y a]; simpl;
    try reflexivity.
  - now rewrite app_nil_r.
  - do 6 f_equal. now rewrite <- app_assoc.
Qed.

End RunScriptFacts.

(** ** build.py: what each function logs, raises and returns *)

Module BuildFacts.
Import Build.

Ltac log_all_step :=
  lazymatch goal with
  | |- log_all _ (ret _) => apply log_all_ret
  | |- log_all _ (raise _) => apply log_all_raise
  | |- log_all _ (sys_exit _) => apply log_all_raise
  | |- log_all _ (emit _) => apply log_all_emit; reflexivity
  | |- log_all _ (print _) => apply log_all_emit; reflexivity
  | |- log_all _ (bind _ _) => apply log_all_bind; [|intros ?]
  | |- log_all _ (for_each _ _) => apply log_all_for_each; intros ?
  | |- log_all _ (for_fold _ _ _) => apply log_all_for_fold; intros ? ?
  | |- log_all _ (when ?b _) => destruct b; unfold when
  | |- log_all _ (if ?b then _ else _) => destruct b
  | |- log_all _ (match ?x with _ => _ end) => destruct x
  end.

Ltac faults_step :=
  lazymatch goal with
  | |- faults_only (ret _) => apply faults_only_ret
  | |- faults_only (emit _) => apply faults_only_emit
  | |- faults_only (print _) => apply faults_only_emit
  | |- faults_only (bind _ _) => apply faults_only_bind; [|intros ?]
  | |- faults_only (for_each _ _) => apply faults_only_for_each; intros ?
  | |- faults_only (for_fold _ _ _) =>
      apply faults_only_for_fold; intros ? ?
  | |- faults_only (when ?b _) => destruct b; unfold when
  | |- faults_only (if ?b then _ else _) => destruct b
  | |- faults_only (match ?x with _ => _ end) => destruct x
  end.

Ltac returns_step :=
  lazymatch goal with
  | |- returns (ret _) => apply returns_ret
  | |- returns (emit _) => apply returns_emit
  | |- returns (print _) => apply returns_emit
  | |- returns (bind _ _) => apply returns_bind; [|intros ?]
  | |- returns (for_each _ _) => apply returns_for_each; intros ?
  | |- returns (for_fold _ _ _) => apply returns_for_fold; intros ? ?
  | |- returns (when ?b _) => destruct b; unfold when
  | |- returns (if ?b then _ else _) => destruct b
  | |- returns (match ?x with _ => _ end) => destruct x
  end.

Section Functions.
Variable w : world.

(** [run_command] with [check=False], by the way the child ends. *)
Lemma run_command_unchecked cmd :
  run_command w cmd false
  = match proc w cmd with
    | Exited rc out err =>
        (Ret {| returncode := rc; stdout := out; stderr := err |},
         [Say ("Running: " ++ String.concat " " cmd); Run cmd]
           ++ (if nonempty out then [Echo out] else [])
           ++ (if nonempty err && (rc =? 0) then [Echo err] else []))%list
    | SpawnError msg =>
        (Raise (OSError msg),
         [Say ("Running: " ++ String.concat " " cmd); Run cmd])
    | Interrupted =>
        (Raise KeyboardInterrupt,
         [Say ("Running: " ++ String.concat " " cmd); Run cmd])
    end.
Proof.
  unfold run_command, subprocess_run.
  destruct (proc w cmd) as [rc out err | msg |]; try reflexivity.
  cbn. destruct (nonempty out); destruct (nonempty err && (rc =? 0));
    reflexivity.
Qed.

Lemma run_command_faults cmd : faults_only (run_command w cmd false).
Proof.
  rewrite run_command_unchecked. now destruct (proc w cmd).
Qed.

Lemma run_command_returns cmd :
  child_exited w cmd -> returns (run_command w cmd false).
Proof.
  intros (rc & out & err & E). rewrite run_command_unchecked, E. exact I.
Qed.

Lemma run_command_log (P : event -> Prop) cmd :
  (forall s, P (Say ("Running: " ++ s))) -> P (Run cmd) ->
  (forall s, P (Echo s)) ->
  log_all P (run_command w cmd false).
Proof.
  intros HS HR HE. rewrite run_command_unchecked. unfold log_all, log.
  destruct (proc w cmd) as [rc out err | msg |]; simpl;
    repeat first [ apply Forall_cons | apply Forall_nil | apply HS
                 | apply HR | apply HE ].
  destruct (nonempty out); destruct (nonempty err && (rc =? 0)); simpl;
    repeat first [ apply Forall_cons | apply Forall_nil | apply HE ].
Qed.

Ltac child_log :=
  apply run_command_log; [intros ?; reflexivity | reflexivity
                         | intros ?; reflexivity].

(** No function of the script prints a summary line. *)
Lemma clean_project_plain :
  log_all (fun ev => summary_event ev = false) (clean_project w).
Proof. unfold clean_project. repeat first [child_log | log_all_step]. Qed.

Lemma build_project_plain cfg :
  log_all (fun ev => summary_event ev = false) (build_project w cfg).
Proof.
  unfold build_project, build_solution.
  repeat first [child_log | log_all_step].
Qed.

Lemma run_tests_plain :
  log_all (fun ev => summary_event ev = false) (run_tests w).
Proof. unfold run_tests, test_one. repeat first [child_log | log_all_step]. Qed.

Lemma run_application_plain name :
  log_all (fun ev => summary_event ev = false) (run_application w name).
Proof.
  unfold run_application, select_project.
  repeat first [child_log | log_all_step].
Qed.

(** Cleaning and building enter neither the test nor the run phase. *)
Lemma clean_project_early :
  log_all (fun ev => later_attempt ev = false) (clean_project w).
Proof. unfold clean_project. repeat first [child_log | log_all_step]. Qed.

Lemma build_project_early cfg :
  log_all (fun ev => later_attempt ev = false) (build_project w cfg).
Proof.
  unfold build_project, build_solution.
  repeat first [child_log | log_all_step].
Qed.

(** The phase functions raise nothing but faults of the outside. *)
Lemma clean_project_faults : faults_only (clean_project w).
Proof.
  unfold clean_project.
  repeat first [apply run_command_faults | faults_step].
Qed.

Lemma build_project_faults cfg : faults_only (build_project w cfg).
Proof.
  unfold build_project, build_solution.
  repeat first [apply run_command_faults | faults_step].
Qed.

Lemma run_tests_faults : faults_only (run_tests w).
Proof.
  unfold run_tests, test_one.
  repeat first [apply run_command_faults | faults_step].
Qed.

Lemma run_application_faults name : faults_only (run_application w name).
Proof.
  unfold run_application, select_project.
  repeat first [apply run_command_faults | faults_step].
Qed.

(** With every child running to its end, the phase functions return. *)
Hypothesis all_exit : all_children_exit w.

Lemma clean_project_returns : returns (clean_project w).
Proof.
  unfold clean_project.
  repeat first [apply run_command_returns; apply all_exit | returns_step].
Qed.

Lemma build_project_returns cfg : returns (build_project w cfg).
Proof.
  unfold build_project, build_solution.
  repeat first [apply run_command_returns; apply all_exit | returns_step].
Qed.

Lemma run_tests_returns : returns (run_tests w).
Proof.
  unfold run_tests, test_one.
  repeat first [apply run_command_returns; apply all_exit | returns_step].
Qed.

Lemma run_application_returns name : returns (run_application w name).
Proof.
  unfold run_application, select_project.
  repeat first [apply run_command_returns; apply all_exit | returns_step].
Qed.

End Functions.

(** *** Results of the phase loops *)

Section Loops.
Variable w : world.

Lemma build_solution_fst cfg b0 s :
  fst (build_solution w cfg b0 s)
  = round_result b0 (path_exists w s) (proc w (build_cmd s cfg)).
Proof.
  unfold build_solution, round_result.
  destruct (path_exists w s); [|reflexivity].
  rewrite !fst_bind. cbn [print emit fst]. rewrite run_command_unchecked.
  destruct (proc w (build_cmd s cfg)) as [rc out err| |];
    cbn [fst returncode]; try reflexivity.
  destruct (rc =? 0); reflexivity.
Qed.

Lemma test_one_fst b0 p :
  fst (test_one w b0 p)
  = round_result b0 (path_exists w p) (proc w (test_cmd p)).
Proof.
  unfold test_one, round_result.
  destruct (path_exists w p); [|reflexivity].
  rewrite !fst_bind. cbn [print emit fst]. rewrite run_command_unchecked.
  destruct (proc w (test_cmd p)) as [rc out err| |];
    cbn [fst returncode]; try reflexivity.
  destruct (rc =? 0); reflexivity.
Qed.

Section Loop.
Variables (body : bool -> string -> M bool) (cmd_of : string -> list string).
Hypothesis body_fst : forall b0 s,
  fst (body b0 s) = round_result b0 (path_exists w s) (proc w (cmd_of s)).

(** The flag of a loop that ends is false exactly when it was false
    before or some child of the loop exited with a failure code. *)
Lemma loop_result items b0 b :
  fst (for_fold items b0 body) = Ret b ->
  (b = false <->
   b0 = false
   \/ exists s, In s items /\ path_exists w s = true
                /\ child_failed w (cmd_of s)).
Proof.
  revert b0. induction items as [|s items IH]; intros b0; cbn [for_fold].
  - intros [= ->]. split; [tauto|]. intros [H|(s & [] & _)]. exact H.
  - rewrite fst_bind, body_fst. unfold round_result.
    destruct (path_exists w s) eqn:Ep.
    + destruct (proc w (cmd_of s)) as [rc out err| |] eqn:Eo;
        try discriminate.
      intros H. apply IH in H. rewrite H. clear H IH.
      destruct (rc =? 0) eqn:Erc.
      * apply Z.eqb_eq in Erc. subst rc. split.
        -- intros [H|(s' & Hin & Hp & Hf)]; [now left|].
           right. exists s'. split; [now right | tauto].
        -- intros [H|(s' & [<-|Hin] & Hp & Hf)];
             [now left | | right; eauto].
           destruct Hf as (rc & o & e & E & Hne). rewrite Eo in E.
           injection E as <- _ _. congruence.
      * apply Z.eqb_neq in Erc. split.
        -- intros _. right. exists s. split; [now left|].
           split; [exact Ep|]. exists rc, out, err. tauto.
        -- intros _. now left.
    + intros H. apply IH in H. rewrite H. clear H IH. split.
      * intros [H|(s' & Hin & Hp & Hf)]; [now left|].
        right. exists s'. split; [now right | tauto].
      * intros [H|(s' & [<-|Hin] & Hp & Hf)]; [now left | congruence |].
        right. eauto.
Qed.

(** A loop that ends has seen every child it started run to its end. *)
Lemma loop_children_exited items b0 b :
  fst (for_fold items b0 body) = Ret b ->
  forall s, In s items -> path_exists w s = true ->
            child_exited w (cmd_of s).
Proof.
  revert b0. induction items as [|s items IH]; intros b0; cbn [for_fold].
  - intros _ s [].
  - rewrite fst_bind, body_fst. unfold round_result.
    intros H s' [<-|Hin] Hp.
    + rewrite Hp in H.
      destruct (proc w (cmd_of s)) as [rc out err| |] eqn:Eo;
        try discriminate.
      exists rc, out, err. exact Eo.
    + destruct (path_exists w s).
      * destruct (proc w (cmd_of s)) as [rc out err| |]; try discriminate.
        eapply IH; eassumption.
      * eapply IH; eassumption.
Qed.

End Loop.

Lemma build_project_fst cfg :
  fst (build_project w cfg)
  = fst (for_fold solutions true (build_solution w cfg)).
Proof. unfold build_project. rewrite fst_bind. reflexivity. Qed.

Lemma run_tests_fst :
  fst (run_tests w) = fst (for_fold test_projects true (test_one w)).
Proof. unfold run_tests. rewrite fst_bind. reflexivity. Qed.

Lemma select_project_returns name :
  exists sel l, select_project w name = (Ret sel, l).
Proof.
  unfold select_project.
  destruct name as [n|];
    [destruct (nonempty n); [destruct (dict_get runnable_projects n)|]|];
    try (eexists; eexists; reflexivity);
    destruct (path_exists w (dict_at runnable_projects "demo"));
    try (eexists; eexists; reflexivity);
    destruct (path_exists w (dict_at runnable_projects "app"));
    eexists; eexists; reflexivity.
Qed.

Lemma run_application_fst name sel l :
  select_project w name = (Ret sel, l) ->
  fst (run_application w name)
  = match sel with
    | None => Ret false
    | Some (project_to_run, _) =>
        if path_exists w project_to_run then
          match proc w (run_cmd project_to_run) with
          | Exited rc _ _ => Ret (rc =? 0)
          | SpawnError msg => Raise (OSError msg)
          | Interrupted => Raise KeyboardInterrupt
          end
        else Ret false
    end.
Proof.
  intros Hs. unfold run_application. rewrite !fst_bind.
  cbn [print emit fst]. rewrite Hs. cbn [fst].
  destruct sel as [[p n]|]; [|reflexivity].
  destruct (path_exists w p); [|reflexivity].
  rewrite !fst_bind. cbn [print emit fst]. rewrite run_command_unchecked.
  destruct (proc w (run_cmd p)); reflexivity.
Qed.

End Loops.

(** *** The course of [main] *)

Ltac log_list :=
  unfold log_all, log in *; simpl in *;
  repeat first [ apply Forall_nil | assumption
               | apply Forall_cons; [reflexivity|]
               | apply Forall_app; split ].

Ltac fault_cases H e :=
  unfold faults_only in H; simpl in H; destruct e; try discriminate H.

Ltac abort_case := cbn; split; [reflexivity | log_list].

Lemma version_check_early w :
  log_all (fun ev => later_attempt ev = false)
    (run_command w version_cmd false).
Proof.
  apply run_command_log;
    [intros ?; reflexivity | reflexivity | intros ?; reflexivity].
Qed.

Lemma version_check_plain w :
  log_all (fun ev => summary_event ev = false)
    (run_command w version_cmd false).
Proof.
  apply run_command_log;
    [intros ?; reflexivity | reflexivity | intros ?; reflexivity].
Qed.

(** After a failed build, [main] enters neither the test nor the run
    phase and leaves with status 1. *)
Lemma main_failed_build w a :
  build_failed w a ->
  exit_status (main w a) = Some 1
  /\ log_all (fun ev => later_attempt ev = false) (main w a).
Proof.
  intros [Hs Hb]. unfold main, os_chdir.
  destruct (chdir_raises w) as [msg|].
  { split; [reflexivity | repeat constructor]. }
  unfold phases, print_summary. rewrite Hs.
  pose proof (run_command_faults w version_cmd) as FV.
  pose proof (version_check_early w) as LV.
  pose proof (clean_project_faults w) as FC.
  pose proof (clean_project_early w) as LC.
  pose proof (build_project_early w (configuration a)) as LB.
  destruct (build_project w (configuration a)) as [rb lb].
  simpl in Hb. subst rb.
  set (V := run_command w version_cmd false) in *. clearbody V.
  set (C := clean_project w) in *. clearbody C.
  set (T := run_tests w) in *. clearbody T.
  set (R := run_application w _) in *. clearbody R.
  destruct V as [[rv|ev] lv].
  2:{ fault_cases FV ev; abort_case. }
  cbn. destruct (returncode rv =? 0); [|abort_case].
  destruct (clean a); cbn.
  1: destruct C as [[[]|ec] lc]; [| fault_cases FC ec; abort_case]; cbn.
  all: destruct (run_truthy a); cbn; rewrite ?andb_false_r; cbn.
  all: try abort_case.
  all: destruct (test a), (run_requested a); abort_case.
Qed.

(** When a phase function raises, [main] leaves with status 1 before any
    summary. *)
Lemma main_phase_raises w a :
  (skip_build a = false
   /\ exists e, fst (build_project w (configuration a)) = Raise e)
  \/ (test a = true /\ build_passed_or_skipped w a
      /\ exists e, fst (run_tests w) = Raise e)
  \/ (run_requested a = true /\ build_passed_or_skipped w a
      /\ exists e,
           fst (run_application w (if run_truthy a then run a else None))
           = Raise e) ->
  exit_status (main w a) = Some 1
  /\ log_all (fun ev => summary_event ev = false) (main w a).
Proof.
  intros H. unfold build_passed_or_skipped in H. unfold main, os_chdir.
  destruct (chdir_raises w) as [msg|].
  { split; [reflexivity | repeat constructor]. }
  unfold phases, print_summary.
  pose proof (run_command_faults w version_cmd) as FV.
  pose proof (version_check_plain w) as LV.
  pose proof (clean_project_faults w) as FC.
  pose proof (clean_project_plain w) as LC.
  pose proof (build_project_faults w (configuration a)) as FB.
  pose proof (build_project_plain w (configuration a)) as LB.
  pose proof (run_tests_faults w) as FT.
  pose proof (run_tests_plain w) as LT.
  pose proof (run_application_faults w
                (if run_truthy a then run a else None)) as FR.
  pose proof (run_application_plain w
                (if run_truthy a then run a else None)) as LR.
  set (V := run_command w version_cmd false) in *. clearbody V.
  set (C := clean_project w) in *. clearbody C.
  set (B := build_project w (configuration a)) in *. clearbody B.
  set (T := run_tests w) in *. clearbody T.
  set (R := run_application w _) in *. clearbody R.
  destruct V as [[rv|ev] lv].
  2:{ fault_cases FV ev; abort_case. }
  cbn. destruct (returncode rv =? 0); [|abort_case].
  destruct (clean a); cbn.
  1: destruct C as [[[]|ec] lc]; [| fault_cases FC ec; abort_case]; cbn.
  all: destruct (skip_build a); cbn.
  all: try (destruct B as [[[|]|eb] lb];
            [| | fault_cases FB eb; abort_case]; cbn).
  all: destruct (run_truthy a); cbn.
  all: destruct (test a); cbn.
  all: try (destruct T as [[[|]|et] lt];
            [| | fault_cases FT et; abort_case]; cbn).
  all: destruct (run_requested a); cbn.
  all: try (destruct R as [[[|]|er] lr];
            [| | fault_cases FR er; abort_case]; cbn).
  all: try abort_case.
  all: exfalso; simpl in H; intuition (try congruence);
       repeat match goal with Hx : exists _, _ |- _ => destruct Hx end;
       congruence.
Qed.

(** With every child running to its end and the SDK check passed, the
    status of [main] is 0 or 1, and it is 1 exactly when the build or the
    tests were executed and failed. *)
Lemma exit_status_summary w a :
  all_children_exit w ->
  chdir_raises w = None ->
  (exists out err, proc w version_cmd = Exited 0 out err) ->
  (exit_status (main w a) = Some 0 \/ exit_status (main w a) = Some 1)
  /\ (exit_status (main w a) <> Some 0
      <-> build_failed w a \/ tests_failed w a).
Proof.
  intros Hall Hc (out & err & Hv).
  unfold build_failed, tests_failed, build_passed_or_skipped.
  unfold main, os_chdir, phases, print_summary, run_truthy, run_requested.
  rewrite Hc, run_command_unchecked, Hv.
  destruct (returns_inv _ (clean_project_returns w Hall))
    as ([] & lc & EC).
  destruct (returns_inv _ (build_project_returns w Hall (configuration a)))
    as (b & lb & EB).
  destruct (returns_inv _ (run_tests_returns w Hall)) as (t & lt & ET).
  rewrite EC, EB, ET.
  destruct (run a) as [s|]; [destruct (nonempty s)|].
  all: match goal with
       | |- context [run_application ?w0 ?n] =>
           destruct (returns_inv _ (run_application_returns w0 Hall n))
             as (r & lr & ER);
           rewrite ER
       | _ => idtac
       end.
  all: destruct (clean a), (skip_build a), (test a), b, t; try destruct r;
       cbn; (split; [tauto|]); split; intros H;
       first [ exfalso; apply H; reflexivity | intuition congruence ].
Qed.

(** *** Skipped phases *)

Lemma bind_ext {A B} (m m' : M A) (f f' : A -> M B) :
  m = m' -> (forall a, f a = f' a) -> bind m f = bind m' f'.
Proof.
  intros <- H. destruct m as [[a|e] l]; unfold bind;
    [now rewrite H | reflexivity].
Qed.

Lemma for_each_ext {A} (l : list A) (f f' : A -> M unit) :
  (forall x, f x = f' x) -> for_each l f = for_each l f'.
Proof.
  intros H. induction l as [|x l IH]; cbn [for_each]; [reflexivity|].
  apply bind_ext; [apply H | intros _; exact IH].
Qed.

Lemma for_fold_ext {A S} (l : list A) (s : S) (f f' : S -> A -> M S) :
  (forall s x, f s x = f' s x) -> for_fold l s f = for_fold l s f'.
Proof.
  intros H. revert s.
  induction l as [|x l IH]; intros s; cbn [for_fold]; [reflexivity|].
  apply bind_ext; [apply H | intros s'; apply IH].
Qed.

Lemma try_except_ext {A} (m m' : M A) h :
  m = m' -> try_except m h = try_except m' h.
Proof. now intros <-. Qed.

Lemma run_command_ext w w' cmd check :
  proc w cmd = proc w' cmd ->
  run_command w cmd check = run_command w' cmd check.
Proof. intros H. unfold run_command, subprocess_run. now rewrite H. Qed.

Ltac ext_step :=
  lazymatch goal with
  | |- bind _ _ = bind _ _ => apply bind_ext; [|intros ?]
  | |- for_each ?l _ = for_each ?l _ => apply for_each_ext; intros ?
  | |- for_fold ?l ?s _ = for_fold ?l ?s _ =>
      apply for_fold_ext; intros ? ?
  | |- try_except _ ?h = try_except _ ?h => apply try_except_ext
  | |- when ?b _ = when ?b _ => destruct b; unfold when
  | |- (if ?b then _ else _) = (if ?b then _ else _) => destruct b
  | |- match ?x with _ => _ end = match ?x with _ => _ end => destruct x
  | |- ?x = ?x => reflexivity
  end.

Section Frame.
Variables (skip : list string -> bool) (w w' : world).
Hypothesis same : same_outside_except skip w w'.

Lemma same_exists : path_exists w = path_exists w'.
Proof. exact (proj1 (proj2 same)). Qed.

Lemma same_proc cmd : skip cmd = false -> proc w cmd = proc w' cmd.
Proof. exact (proj2 (proj2 (proj2 (proj2 same))) cmd). Qed.

Ltac same_child :=
  apply run_command_ext; apply same_proc;
  first [reflexivity | assumption | auto].

Lemma clean_project_frame :
  (forall s, skip (clean_cmd s) = false) ->
  clean_project w = clean_project w'.
Proof.
  intros Hs. unfold clean_project.
  rewrite same_exists, (proj1 (proj2 (proj2 same))),
    (proj1 (proj2 (proj2 (proj2 same)))).
  repeat first [same_child | ext_step].
Qed.

Lemma build_project_frame cfg :
  (forall s, skip (build_cmd s cfg) = false) ->
  build_project w cfg = build_project w' cfg.
Proof.
  intros Hs. unfold build_project, build_solution. rewrite same_exists.
  repeat first [same_child | ext_step].
Qed.

Lemma run_tests_frame :
  (forall p, skip (test_cmd p) = false) -> run_tests w = run_tests w'.
Proof.
  intros Hs. unfold run_tests, test_one. rewrite same_exists.
  repeat first [same_child | ext_step].
Qed.

Lemma run_application_frame name :
  (forall p, skip (run_cmd p) = false) ->
  run_application w name = run_application w' name.
Proof.
  intros Hs. unfold run_application, select_project. rewrite same_exists.
  repeat first [same_child | ext_step].
Qed.

End Frame.

(** A phase that is skipped leaves [main] blind to its children. *)
Lemma main_frame_build w w' a :
  skip_build a = true -> same_outside_except is_build_cmd w w' ->
  main w a = main w' a.
Proof.
  intros Hk same. unfold main, os_chdir, phases.
  rewrite Hk, (proj1 same). cbn [negb].
  rewrite (clean_project_frame _ _ _ same) by reflexivity.
  rewrite (run_tests_frame _ _ _ same) by reflexivity.
  rewrite (run_command_ext w w' version_cmd false)
    by (apply (same_proc _ _ _ same); reflexivity).
  repeat first [ apply (run_application_frame _ _ _ same); reflexivity
               | ext_step ].
Qed.

Lemma main_frame_test w w' a :
  test a = false -> same_outside_except is_test_cmd w w' ->
  main w a = main w' a.
Proof.
  intros Hk same. unfold main, os_chdir, phases.
  rewrite Hk, (proj1 same). cbn [andb].
  rewrite (clean_project_frame _ _ _ same) by reflexivity.
  rewrite (build_project_frame _ _ _ same) by reflexivity.
  rewrite (run_command_ext w w' version_cmd false)
    by (apply (same_proc _ _ _ same); reflexivity).
  repeat first [ apply (run_application_frame _ _ _ same); reflexivity
               | ext_step ].
Qed.

Lemma main_frame_run w w' a :
  run a = None -> same_outside_except is_run_cmd w w' ->
  main w a = main w' a.
Proof.
  intros Hk same. unfold main, os_chdir, phases, run_requested, run_truthy.
  rewrite Hk, (proj1 same). cbn [andb].
  rewrite (clean_project_frame _ _ _ same) by reflexivity.
  rewrite (build_project_frame _ _ _ same) by reflexivity.
  rewrite (run_tests_frame _ _ _ same) by reflexivity.
  rewrite (run_command_ext w w' version_cmd false)
    by (apply (same_proc _ _ _ same); reflexivity).
  reflexivity.
Qed.

Lemma log_all_impl {A} (P Q : event -> Prop) (m : M A) :
  (forall ev, P ev -> Q ev) -> log_all P m -> log_all Q m.
Proof. unfold log_all. intros H. apply Forall_impl. exact H. Qed.

Lemma summary_event_line label ev :
  label = "Build: " \/ label = "Tests: " \/ label = "Run: " ->
  summary_event ev = false -> summary_line label ev = false.
Proof.
  unfold summary_event. intros H E.
  apply orb_false_elim in E. destruct E as [E E3].
  apply orb_false_elim in E. destruct E as [E E2].
  apply orb_false_elim in E. destruct E as [_ E1].
  destruct H as [-> | [-> | ->]]; assumption.
Qed.

(** Lines with a summary label come from [print_summary] only. *)
Lemma main_summary_lines w a label :
  label = "Build: " \/ label = "Tests: " \/ label = "Run: " ->
  (forall b t r,
     log_all (fun ev => summary_line label ev = false)
       (print_summary a b t r)) ->
  log_all (fun ev => summary_line label ev = false) (main w a).
Proof.
  intros Hl Hsum.
  pose proof (log_all_impl _ _ _ (fun ev => summary_event_line label ev Hl)
                (version_check_plain w)) as LV.
  pose proof (log_all_impl _ _ _ (fun ev => summary_event_line label ev Hl)
                (clean_project_plain w)) as LC.
  pose proof (fun cfg => log_all_impl _ _ _
                (fun ev => summary_event_line label ev Hl)
                (build_project_plain w cfg)) as LB.
  pose proof (log_all_impl _ _ _ (fun ev => summary_event_line label ev Hl)
                (run_tests_plain w)) as LT.
  pose proof (fun name => log_all_impl _ _ _
                (fun ev => summary_event_line label ev Hl)
                (run_application_plain w name)) as LR.
  unfold main, os_chdir, phases.
  destruct Hl as [-> | [-> | ->]].
  all: repeat first
         [ exact LV | exact LC | apply LB | exact LT | apply LR | apply Hsum
         | apply log_all_try;
           [| intros e k Hk; destruct e; cbn in Hk; try discriminate Hk;
              injection Hk as <-;
              unfold log_all, log; simpl;
              repeat (apply Forall_cons; [reflexivity|]); apply Forall_nil ]
         | log_all_step ].
Qed.

Lemma print_summary_skip_build a b t r :
  skip_build a = true ->
  log_all (fun ev => summary_line "Build: " ev = false)
    (print_summary a b t r).
Proof.
  intros H. unfold print_summary. rewrite H. cbn [negb when].
  repeat log_all_step.
Qed.

Lemma print_summary_no_test a b t r :
  test a = false ->
  log_all (fun ev => summary_line "Tests: " ev = false)
    (print_summary a b t r).
Proof.
  intros H. unfold print_summary. rewrite H. cbn [negb when].
  repeat log_all_step.
Qed.

Lemma print_summary_no_run a b t r :
  run a = None ->
  log_all (fun ev => summary_line "Run: " ev = false)
    (print_summary a b t r).
Proof.
  intros H. unfold print_summary, run_requested. rewrite H. cbn [when].
  repeat log_all_step.
Qed.

End BuildFacts.

Import RunScript RunScriptFacts.

(** C4.  With the script's own name in [sys.argv[0]], a token list whose
    first separator stands at position [i] is split into
    [tokens[0:i]] and [tokens[i+1:]], so that later separators stay in
    the application arguments as they are; a token list without separator
    is all script arguments and leaves the application arguments empty. *)
Theorem C4_split_at_first_separator (argv0 : string) (tokens : list string) :
  argv0 <> separator ->
  (forall i, first_separator_at tokens i ->
     split_args (argv0 :: tokens)
     = Ret (slice tokens 0 i, slice_from tokens (i + 1)))
  /\ (~ In separator tokens -> split_args (argv0 :: tokens) = Ret (tokens, [])).
Proof.
  intros Hne. rewrite (split_args_cons argv0 tokens Hne). split.
  - intros i Hi. apply index_first_separator in Hi. rewrite Hi.
    unfold slice, slice_from. cbn [skipn].
    now rewrite PeanoNat.Nat.sub_0_r, PeanoNat.Nat.add_1_r.
  - intros Hn. apply index_None_not_In in Hn. now rewrite Hn.
Qed.

Lemma C4_split_at_first_separator_witness :
  ("r.py" <> separator
   /\ first_separator_at ["--clean"; "--"; "--verbose"; "--"; "--port=8080"] 1
   /\ ~ In separator ["--clean"])
  /\ split_args ["r.py"; "--clean"; "--"; "--verbose"; "--"; "--port=8080"]
     = Ret (["--clean"], ["--verbose"; "--"; "--port=8080"])
  /\ split_args ["r.py"; "--clean"] = Ret (["--clean"], []).
Proof.
  assert (H0 : "r.py" <> separator) by discriminate.
  assert (H1 : first_separator_at
                 ["--clean"; "--"; "--verbose"; "--"; "--port=8080"] 1).
  { split; [reflexivity|]. intros [|j] Hj; [discriminate | lia]. }
  assert (H2 : ~ In separator ["--clean"]).
  { simpl. intros [H|[]]. discriminate. }
  split; [tauto|]. split.
  - exact (proj1 (C4_split_at_first_separator "r.py" _ H0) 1%nat H1).
  - exact (proj2 (C4_split_at_first_separator "r.py" _ H0) H2).
Defined.

(** C5, counterexample.  With a second separator among the application
    arguments the constructed command holds the separator twice. *)
Lemma C5_separator_twice :
  exists cmd,
    constructed_cmd ["r.py"; "--clean"; "--"; "--verbose"; "--"; "x"] = Some cmd
    /\ separators cmd = 2%nat
    /\ ~ (separators cmd <= 1)%nat.
Proof.
  eexists. split; [reflexivity|]. split; [reflexivity|].
  vm_compute. lia.
Qed.

(** C5, amended.  The wrapper inserts the separator exactly once when the
    application arguments are not empty and not at all when they are
    empty; the script arguments never hold one.  The constructed command
    therefore holds one separator more than the application arguments,
    or none, and holds a separator only if there are application
    arguments. *)
Theorem C5_separator_count (argv script_args app_args : list string) :
  split_args argv = Ret (script_args, app_args) ->
  let cmd := build_cmd script_args app_args in
  constructed_cmd argv = Some cmd
  /\ separators cmd
     = (if truthy app_args then S (separators app_args) else O)
  /\ (In separator cmd -> app_args <> []).
Proof.
  intros Hs cmd.
  assert (Hclean : ~ In separator script_args)
    by (eapply split_args_script_clean; eassumption).
  assert (Hcount : separators cmd
            = (if truthy app_args then S (separators app_args) else O)).
  { subst cmd. rewrite build_cmd_eq. unfold separators.
    rewrite !count_occ_app.
    rewrite (proj1 (count_occ_not_In string_dec script_args separator) Hclean).
    destruct app_args as [|y a]; [reflexivity|].
    cbn [truthy]. rewrite count_occ_cons_eq by reflexivity. reflexivity. }
  split; [|split].
  - unfold constructed_cmd. now rewrite Hs.
  - exact Hcount.
  - intros Hin ->.
    apply (count_occ_In string_dec) in Hin. fold (separators cmd) in Hin.
    rewrite Hcount in Hin. cbn in Hin. lia.
Qed.

Lemma C5_separator_count_witness :
  split_args ["r.py"; "--clean"; "--"; "--verbose"; "--"; "x"]
  = Ret (["--clean"], ["--verbose"; "--"; "x"])
  /\ separators (build_cmd ["--clean"] ["--verbose"; "--"; "x"]) = 2%nat.
Proof.
  split; [reflexivity|].
  exact (proj1 (proj2 (C5_separator_count
           ["r.py"; "--clean"; "--"; "--verbose"; "--"; "x"]
           ["--clean"] ["--verbose"; "--"; "x"] eq_refl))).
Defined.

(** C10.  When a token follows the first separator, the constructed
    command is the fixed [dotnet run] prefix followed by the input tokens
    unchanged; when the first separator is the last token, the command is
    the prefix followed by the tokens without that trailing separator. *)
Theorem C10_reconstruction (argv0 : string) (tokens : list string) (i : nat) :
  argv0 <> separator ->
  first_separator_at tokens i ->
  ((S i < List.length tokens)%nat ->
     constructed_cmd (argv0 :: tokens)
     = Some (["dotnet"; "run"; "--project";
              "MultipleAIApp/MultipleAIApp.csproj";
              "--framework"; "net8.0-desktop"] ++ tokens)%list)
  /\ (S i = List.length tokens ->
     constructed_cmd (argv0 :: tokens)
     = Some (["dotnet"; "run"; "--project";
              "MultipleAIApp/MultipleAIApp.csproj";
              "--framework"; "net8.0-desktop"] ++ removelast tokens)%list).
Proof.
  intros Hne Hi. unfold constructed_cmd.
  rewrite (split_args_cons argv0 tokens Hne).
  pose proof Hi as [Hnth _]. apply index_first_separator in Hi. rewrite Hi.
  rewrite build_cmd_eq. fold dotnet_run_prefix. split; intros Hlen.
  - assert (Hne' : skipn (S i) tokens <> []).
    { intros E. apply (f_equal (@List.length string)) in E.
      rewrite length_skipn in E. simpl in E. lia. }
    destruct (skipn (S i) tokens) as [|y a] eqn:Ea; [congruence|].
    cbn [truthy]. rewrite <- Ea.
    now rewrite (firstn_skipn_middle i tokens Hnth).
  - assert (E : skipn (S i) tokens = []).
    { apply skipn_all2. lia. }
    rewrite E. cbn [truthy]. rewrite app_nil_r.
    rewrite removelast_firstn_len, <- Hlen. reflexivity.
Qed.

Lemma C10_reconstruction_witness :
  ("r.py" <> separator
   /\ first_separator_at ["--clean"; "--"; "--verbose"; "--port=8080"] 1
   /\ (2 < List.length ["--clean"; "--"; "--verbose"; "--port=8080"])%nat)
  /\ constructed_cmd ["r.py"; "--clean"; "--"; "--verbose"; "--port=8080"]
     = Some ["dotnet"; "run"; "--project";
             "MultipleAIApp/MultipleAIApp.csproj";
             "--framework"; "net8.0-desktop";
             "--clean"; "--"; "--verbose"; "--port=8080"].
Proof.
  assert (H0 : "r.py" <> separator) by discriminate.
  assert (H1 : first_separator_at
                 ["--clean"; "--"; "--verbose"; "--port=8080"] 1).
  { split; [reflexivity|]. intros [|j] Hj; [discriminate | lia]. }
  assert (H2 : (2 < List.length
                      ["--clean"; "--"; "--verbose"; "--port=8080"])%nat)
    by (simpl; lia).
  split; [tauto|].
  exact (proj1 (C10_reconstruction "r.py" _ 1%nat H0 H1) H2).
Defined.

(** C6, counterexample.  The child is live and [process.wait()] is
    interrupted; the wrapper sends [terminate] and waits with the timeout
    of 5 seconds, and a second interrupt arrives inside that wait (line
    59).  The handler of line 60 catches [TimeoutExpired] only, so the
    interrupt reaches the outer handler of lines 68-70: the wrapper
    leaves with status 1, not 0, and the child, which has not answered
    [terminate], is never killed. *)
Lemma C6_second_interrupt_exits_one :
  exists cmd,
    constructed_cmd ["r.py"; "--"; "--verbose"] = Some cmd
    /\ wait_result Scenarios.interrupted_twice = WInterrupt
    /\ child_events
         (log (main Scenarios.interrupted_twice ["r.py"; "--"; "--verbose"]))
       = [Popen cmd; Wait None; Terminate; Wait (Some 5)]
    /\ ~ In Kill
           (log (main Scenarios.interrupted_twice ["r.py"; "--"; "--verbose"]))
    /\ exit_status
         (main Scenarios.interrupted_twice ["r.py"; "--"; "--verbose"])
       = Some 1
    /\ exit_status
         (main Scenarios.interrupted_twice ["r.py"; "--"; "--verbose"])
       <> Some 0.
Proof.
  eexists. split; [reflexivity|]. split; [reflexivity|].
  split; [reflexivity|]. split.
  - cbn. intros H. repeat (destruct H as [H|H]; [discriminate|]). exact H.
  - split; [reflexivity | discriminate].
Qed.

(** C6, amended.  An interrupt during [process.wait()], with the child
    started, and no further interrupt during the wait that follows: the
    child is sent [terminate], the wrapper waits for it with a timeout of
    5 seconds, kills it when that wait times out, and leaves with status
    0 in both cases.  An interrupt before the child exists (while
    changing directory or inside [Popen]) makes the wrapper leave with
    status 1, no child having been started. *)
Theorem C6_interrupt_handling (w : world) (argv cmd : list string) :
  constructed_cmd argv = Some cmd ->
  (chdir_raises w = None -> popen_raises w cmd = None ->
   wait_result w = WInterrupt ->
     (forall rc, grace_result w = GExit rc ->
        child_events (log (main w argv))
        = [Popen cmd; Wait None; Terminate; Wait (Some 5)]
        /\ exit_status (main w argv) = Some 0)
     /\ (grace_result w = GTimeout ->
        child_events (log (main w argv))
        = [Popen cmd; Wait None; Terminate; Wait (Some 5); Kill]
        /\ exit_status (main w argv) = Some 0))
  /\ (chdir_raises w = Some Interrupt
      \/ (chdir_raises w = None /\ popen_raises w cmd = Some Interrupt) ->
      child_events (log (main w argv)) = []
      /\ exit_status (main w argv) = Some 1).
Proof.
  unfold constructed_cmd, main.
  destruct (split_args argv) as [[script_args app_args]|e]; [|discriminate].
  intros [= <-]. unfold os_chdir, subprocess_Popen, process_wait,
    stop_application, process_wait_timeout.
  split.
  - intros -> -> ->. split.
    + intros rc ->. split; reflexivity.
    + intros ->. split; reflexivity.
  - intros [-> | [-> ->]]; split; reflexivity.
Qed.

Lemma C6_interrupt_handling_witness :
  let w := {| chdir_raises := None; popen_raises := fun _ => None;
              wait_result := WInterrupt; grace_result := GTimeout |} in
  let argv := ["r.py"; "--"; "--verbose"] in
  let cmd := ["dotnet"; "run"; "--project";
              "MultipleAIApp/MultipleAIApp.csproj";
              "--framework"; "net8.0-desktop"; "--"; "--verbose"] in
  constructed_cmd argv = Some cmd
  /\ child_events (log (main w argv))
     = [Popen cmd; Wait None; Terminate; Wait (Some 5); Kill]
  /\ exit_status (main w argv) = Some 0.
Proof.
  intros w argv cmd. split; [reflexivity|].
  exact (proj2 (proj1 (C6_interrupt_handling w argv cmd eq_refl)
                  eq_refl eq_refl eq_refl) eq_refl).
Defined.

(** C9.  A delegated child that exits with a code [n] other than 0 makes
    the wrapper leave with [n]: in [r.py] the application itself, in
    [b.py] the first of the clean, build and run commands that fails. *)
Theorem C9_child_exit_code_propagates (n : Z) :
  n <> 0 ->
  (forall (w : RunScript.world) (argv cmd : list string),
     constructed_cmd argv = Some cmd ->
     RunScript.chdir_raises w = None ->
     popen_raises w cmd = None ->
     wait_result w = WExit n ->
     exit_status (RunScript.main w argv) = Some n)
  /\ (forall (w : BuildApp.world) (a : BuildApp.args) out err,
     BuildApp.chdir_raises w = None ->
     (BuildApp.clean a = true ->
      BuildApp.proc w BuildApp.clean_cmd = Exited n out err ->
      exit_status (BuildApp.main w a) = Some n)
     /\ ((BuildApp.clean a = true ->
          exists o e, BuildApp.proc w BuildApp.clean_cmd = Exited 0 o e) ->
         BuildApp.proc w BuildApp.build_cmd = Exited n out err ->
         exit_status (BuildApp.main w a) = Some n)
     /\ ((BuildApp.clean a = true ->
          exists o e, BuildApp.proc w BuildApp.clean_cmd = Exited 0 o e) ->
         (exists o e, BuildApp.proc w BuildApp.build_cmd = Exited 0 o e) ->
         BuildApp.run a = true ->
         BuildApp.proc w BuildApp.run_cmd = Exited n out err ->
         exit_status (BuildApp.main w a) = Some n)).
Proof.
  intros Hn. assert (En : (n =? 0) = false) by now apply Z.eqb_neq.
  split.
  - intros w argv cmd. unfold constructed_cmd, RunScript.main.
    destruct (split_args argv) as [[script_args app_args]|e]; [|discriminate].
    intros [= <-]. unfold RunScript.os_chdir, subprocess_Popen, process_wait.
    intros -> -> ->. cbn. rewrite En. reflexivity.
  - intros w a out err Hc.
    unfold BuildApp.main, BuildApp.os_chdir, BuildApp.subprocess_run_check.
    rewrite Hc. split; [|split].
    + intros -> ->. cbn. rewrite En. reflexivity.
    + intros Hclean ->. destruct (BuildApp.clean a).
      * destruct (Hclean eq_refl) as (o & e & ->). cbn. rewrite En.
        reflexivity.
      * cbn. rewrite En. reflexivity.
    + intros Hclean (ob & eb & ->) -> ->. destruct (BuildApp.clean a).
      * destruct (Hclean eq_refl) as (o & e & ->). cbn. rewrite En.
        reflexivity.
      * cbn. rewrite En. reflexivity.
Qed.

Lemma C9_child_exit_code_propagates_witness :
  let w := {| RunScript.chdir_raises := None;
              popen_raises := fun _ => None;
              wait_result := WExit 3; grace_result := GTimeout |} in
  (3 <> 0 /\ 2 <> 0)
  /\ exit_status (RunScript.main w ["r.py"; "--"; "--verbose"]) = Some 3
  /\ exit_status
       (BuildApp.main Scenarios.app_build_fails Scenarios.app_clean_args)
     = Some 2.
Proof.
  intros w. split; [split; discriminate|]. split.
  - exact (proj1 (C9_child_exit_code_propagates 3 ltac:(discriminate))
             w ["r.py"; "--"; "--verbose"] _
             eq_refl eq_refl eq_refl eq_refl).
  - refine (proj1 (proj2 (proj2 (C9_child_exit_code_propagates 2
                                   ltac:(discriminate))
                            Scenarios.app_build_fails
                            Scenarios.app_clean_args
                            EmptyString EmptyString eq_refl)) _ eq_refl).
    intros _. exists EmptyString, EmptyString. reflexivity.
Defined.

Import Build BuildFacts Scenarios.

(** C1, counterexample.  The exit rule of the specification fails in
    three invocations: a failed SDK check ends the wrapper with status 1
    although no phase failed; a failed [dotnet clean] leaves the status
    at 0; and so does an application that exits with a failure code. *)
Lemma C1_exit_rule_fails :
  ~ exit_is_or_of_phase_failures sdk_check_fails default_args
  /\ ~ exit_is_or_of_phase_failures clean_fails clean_only_args
  /\ ~ exit_is_or_of_phase_failures run_fails run_demo_args.
Proof.
  unfold exit_is_or_of_phase_failures. repeat split.
  - intros [H _].
    assert (E : exit_status (main sdk_check_fails default_args) <> Some 0)
      by (vm_compute; discriminate).
    destruct (H E) as [(Hc & _) | [(_ & Hb) | [(Ht & _) | (Hr & _)]]];
      vm_compute in *; discriminate.
  - intros [_ H].
    assert (E : exit_status (main clean_fails clean_only_args) = Some 0)
      by reflexivity.
    apply H; [|exact E]. left. split; [reflexivity|].
    exists "MultiLLM.sln". split; [now left|]. split; [reflexivity|].
    exists 1, EmptyString, EmptyString. split; [reflexivity | discriminate].
  - intros [_ H].
    assert (E : exit_status (main run_fails run_demo_args) = Some 0)
      by reflexivity.
    apply H; [|exact E]. right. right. right.
    split; [reflexivity|]. split; [right|]; reflexivity.
Qed.

(** C1, amended.  In an invocation that reaches the summary (the change
    of directory and the SDK check succeed, every child is started and
    runs to its end) and whose run phase does not fail, the wrapper
    leaves with status 0 or 1, and with 1 exactly when the build phase
    was executed and failed or the test phase was executed and failed.
    The children of the clean phase may end as they like. *)
Theorem C1_exit_status_from_build_and_tests (w : world) (a : args) :
  all_children_exit w ->
  chdir_raises w = None ->
  (exists out err, proc w version_cmd = Exited 0 out err) ->
  ~ run_failed w a ->
  (exit_status (main w a) = Some 0 \/ exit_status (main w a) = Some 1)
  /\ (exit_status (main w a) <> Some 0
      <-> build_failed w a \/ tests_failed w a).
Proof.
  intros Hall Hc Hv _. now apply exit_status_summary.
Qed.

Lemma C1_exit_status_from_build_and_tests_witness :
  build_failed build_fails test_run_args
  /\ exit_status (main build_fails test_run_args) <> Some 0.
Proof.
  assert (Hb : build_failed build_fails test_run_args)
    by (split; reflexivity).
  split; [exact Hb|].
  apply (C1_exit_status_from_build_and_tests build_fails test_run_args).
  - intros cmd. unfold child_exited, build_fails, outside. simpl.
    destruct (is_build_cmd cmd); eexists; eexists; eexists; reflexivity.
  - reflexivity.
  - exists EmptyString, EmptyString. reflexivity.
  - intros (_ & [H|H] & _); vm_compute in H; discriminate.
  - left. exact Hb.
Defined.

(** C2, counterexample.  With [--test --run demo] and a build that
    fails, the log of the wrapper holds no event of the run phase. *)
Lemma C2_run_not_attempted :
  build_failed build_fails test_run_args
  /\ run_requested test_run_args = true
  /\ existsb run_attempt (log (main build_fails test_run_args)) = false.
Proof. repeat split. Qed.

(** C2, amended.  When build and run are both requested and the build
    phase fails, the run phase is not attempted (line 238 runs the
    application only after a build that succeeded), and the wrapper
    leaves with status 1. *)
Theorem C2_failed_build_skips_run (w : world) (a : args) :
  run_requested a = true ->
  build_failed w a ->
  log_all (fun ev => run_attempt ev = false) (main w a)
  /\ exit_status (main w a) = Some 1.
Proof.
  intros _ Hb. destruct (main_failed_build w a Hb) as [He Hl].
  split; [|exact He].
  apply (log_all_impl (fun ev => later_attempt ev = false)); [|exact Hl].
  intros ev E. unfold later_attempt in E.
  now apply orb_false_elim in E.
Qed.

Lemma C2_failed_build_skips_run_witness :
  (run_requested test_run_args = true
   /\ build_failed build_fails test_run_args)
  /\ exit_status (main build_fails test_run_args) = Some 1.
Proof.
  assert (Hr : run_requested test_run_args = true) by reflexivity.
  assert (Hb : build_failed build_fails test_run_args)
    by (split; reflexivity).
  split; [tauto|].
  exact (proj2 (C2_failed_build_skips_run build_fails test_run_args Hr Hb)).
Defined.

(** C7.  When the test phase is requested and the build phase fails, the
    test phase is not attempted and the wrapper leaves with status 1. *)
Theorem C7_failed_build_skips_tests (w : world) (a : args) :
  test a = true ->
  build_failed w a ->
  log_all (fun ev => test_attempt ev = false) (main w a)
  /\ exit_status (main w a) = Some 1.
Proof.
  intros _ Hb. destruct (main_failed_build w a Hb) as [He Hl].
  split; [|exact He].
  apply (log_all_impl (fun ev => later_attempt ev = false)); [|exact Hl].
  intros ev E. unfold later_attempt in E.
  now apply orb_false_elim in E.
Qed.

Lemma C7_failed_build_skips_tests_witness :
  (test test_run_args = true /\ build_failed build_fails test_run_args)
  /\ existsb test_attempt (log (main build_fails test_run_args)) = false
  /\ exit_status (main build_fails test_run_args) = Some 1.
Proof.
  assert (Ht : test test_run_args = true) by reflexivity.
  assert (Hb : build_failed build_fails test_run_args)
    by (split; reflexivity).
  split; [tauto|]. split; [reflexivity|].
  exact (proj2 (C7_failed_build_skips_tests build_fails test_run_args Ht Hb)).
Defined.

(** C8.  A phase that is configured to be skipped (the build under
    [--skip-build], the tests without [--test], the run without [--run])
    has no line in the summary, and the exit status does not depend on
    how the children of that phase would end. *)
Theorem C8_skipped_phase_leaves_no_trace (w : world) (a : args) :
  (skip_build a = true ->
     log_all (fun ev => summary_line "Build: " ev = false) (main w a)
     /\ forall w', same_outside_except is_build_cmd w w' ->
                   exit_status (main w a) = exit_status (main w' a))
  /\ (test a = false ->
     log_all (fun ev => summary_line "Tests: " ev = false) (main w a)
     /\ forall w', same_outside_except is_test_cmd w w' ->
                   exit_status (main w a) = exit_status (main w' a))
  /\ (run a = None ->
     log_all (fun ev => summary_line "Run: " ev = false) (main w a)
     /\ forall w', same_outside_except is_run_cmd w w' ->
                   exit_status (main w a) = exit_status (main w' a)).
Proof.
  split; [|split]; intros H; split.
  - apply main_summary_lines; [tauto|]. intros b t r.
    now apply print_summary_skip_build.
  - intros w' Hs. now rewrite (main_frame_build w w' a H Hs).
  - apply main_summary_lines; [tauto|]. intros b t r.
    now apply print_summary_no_test.
  - intros w' Hs. now rewrite (main_frame_test w w' a H Hs).
  - apply main_summary_lines; [tauto|]. intros b t r.
    now apply print_summary_no_run.
  - intros w' Hs. now rewrite (main_frame_run w w' a H Hs).
Qed.

Lemma C8_skipped_phase_leaves_no_trace_witness :
  (skip_build skip_build_args = true
   /\ same_outside_except is_build_cmd tests_fail build_and_tests_fail)
  /\ existsb (summary_line "Build: ")
       (log (main build_and_tests_fail skip_build_args)) = false
  /\ exit_status (main tests_fail skip_build_args)
     = exit_status (main build_and_tests_fail skip_build_args).
Proof.
  assert (Hk : skip_build skip_build_args = true) by reflexivity.
  assert (Hs : same_outside_except is_build_cmd tests_fail
                 build_and_tests_fail).
  { repeat split. intros cmd H. simpl. now rewrite H. }
  split; [tauto|]. split; [reflexivity|].
  exact (proj2 (proj1 (C8_skipped_phase_leaves_no_trace tests_fail
                         skip_build_args) Hk) build_and_tests_fail Hs).
Defined.




(** * Further properties *)

(** ** Commands, removals and stopping at the first failure *)


Module FurtherFacts.
Import Further.

Lemma runs_app l l' : runs (l ++ l') = (runs l ++ runs l')%list.
Proof.
  induction l as [|ev l IH]; [reflexivity|].
  destruct ev; simpl; rewrite IH; reflexivity.
Qed.

Lemma removals_app l l' : removals (l ++ l') = (removals l ++ removals l')%list.
Proof.
  induction l as [|ev l IH]; [reflexivity|].
  destruct ev; simpl; rewrite IH; reflexivity.
Qed.

Lemma Forall_removelast {A} (P : A -> Prop) l :
  Forall P l -> Forall P (removelast l).
Proof.
  induction l as [|x l IH]; [trivial|].
  intros H. inversion H; subst. destruct l; [constructor|].
  constructor; [assumption | now apply IH].
Qed.

Lemma In_runs l cmd : In cmd (runs l) <-> In (Run cmd) l.
Proof.
  induction l as [|ev l IH]; [tauto|].
  destruct ev; simpl; rewrite IH; try (intuition discriminate).
  intuition congruence.
Qed.

Lemma In_removals l p : In p (removals l) <-> In (Rmtree p) l.
Proof.
  induction l as [|ev l IH]; [tauto|].
  destruct ev; simpl; rewrite IH; try (intuition discriminate).
  intuition congruence.
Qed.

Section FailFast.
Variable proc : list string -> outcome.

Lemma fail_fast_ret {A} (a : A) : fail_fast proc (ret a).
Proof. constructor. Qed.

Lemma fail_fast_silent {A} (r : res A) l :
  runs l = [] ->
  match r with Ret _ => True | Raise e => nonzero_exit e end ->
  fail_fast proc (r, l).
Proof.
  intros Hl Hr. unfold fail_fast, log. simpl. rewrite Hl.
  destruct r; [constructor | split; [exact Hr | constructor]].
Qed.

Lemma fail_fast_bind {A B} (m : M A) (f : A -> M B) :
  fail_fast proc m -> (forall a, fail_fast proc (f a)) ->
  fail_fast proc (bind m f).
Proof.
  unfold fail_fast. rewrite fst_bind, log_bind, runs_app.
  intros Hm Hf. destruct (fst m) as [a|e].
  - specialize (Hf a). destruct (fst (f a)) as [b|e].
    + apply Forall_app. now split.
    + destruct Hf as [He Hf]. split; [exact He|].
      destruct (runs (log (f a))) as [|c cs] eqn:E.
      * rewrite app_nil_r. now apply Forall_removelast.
      * rewrite removelast_app by discriminate.
        apply Forall_app. now split.
  - now rewrite app_nil_r.
Qed.

Lemma fail_fast_for_each {A} (l : list A) body :
  (forall x, fail_fast proc (body x)) -> fail_fast proc (for_each l body).
Proof.
  intros Hb. induction l as [|x l IH]; simpl.
  - apply fail_fast_ret.
  - apply fail_fast_bind; [apply Hb | intros _; exact IH].
Qed.

(** Handlers that only print and leave with a status other than 0. *)
Lemma fail_fast_try {A} (m : M A) h :
  fail_fast proc m ->
  (forall e k, nonzero_exit e -> h e = Some k ->
     runs (log k) = []
     /\ match fst k with Ret _ => False | Raise e' => nonzero_exit e' end) ->
  fail_fast proc (try_except m h).
Proof.
  unfold fail_fast, try_except, log. destruct m as [[a|e] l]; simpl.
  - trivial.
  - intros [He Hl] Hh. destruct (h e) as [k|] eqn:E; [|now split].
    destruct (Hh e k He E) as [Hk Hr]. destruct k as [r lk]. simpl in *.
    rewrite runs_app, Hk, app_nil_r.
    destruct r as [b|e']; [contradiction | now split].
Qed.

Lemma fail_fast_exit {A} (m : M A) :
  fail_fast proc m ->
  Forall (exited_ok proc) (removelast (runs (log m)))
  /\ (exit_status m = Some 0 -> Forall (exited_ok proc) (runs (log m))).
Proof.
  unfold fail_fast, exit_status. destruct (fst m) as [a|e].
  - intros H. split; [now apply Forall_removelast | trivial].
  - intros [He H]. split; [exact H|].
    destruct e; simpl in *; intros [= E]; congruence.
Qed.

End FailFast.

Ltac fail_fast_step :=
  lazymatch goal with
  | |- fail_fast _ (ret _) => apply fail_fast_ret
  | |- fail_fast _ (emit _) => apply fail_fast_silent; [reflexivity | exact I]
  | |- fail_fast _ (print _) => apply fail_fast_silent; [reflexivity | exact I]
  | |- fail_fast _ (raise (fault_exn ?f)) =>
      destruct f; (apply fail_fast_silent; [reflexivity | exact I])
  | |- fail_fast _ (raise _) =>
      apply fail_fast_silent; [reflexivity | first [exact I | discriminate]]
  | |- fail_fast _ (sys_exit _) =>
      apply fail_fast_silent; [reflexivity | first [exact I | discriminate]]
  | |- fail_fast _ (bind _ _) => apply fail_fast_bind; [|intros ?]
  | |- fail_fast _ (for_each _ _) => apply fail_fast_for_each; intros ?
  | |- fail_fast _ (when ?b _) => destruct b; unfold when
  | |- fail_fast _ (if ?b then _ else _) => destruct b
  | |- fail_fast _ (match ?x with _ => _ end) => destruct x
  end.

(** b.py *)

Lemma app_run_check_fail_fast (w : BuildApp.world) cmd :
  fail_fast (BuildApp.proc w) (BuildApp.subprocess_run_check w cmd).
Proof.
  unfold BuildApp.subprocess_run_check, fail_fast, log.
  destruct (BuildApp.proc w cmd) as [rc out err| |] eqn:E; cbn.
  - destruct (rc =? 0) eqn:Erc; cbn.
    + apply Z.eqb_eq in Erc. subst rc. repeat constructor.
      exists out, err. exact E.
    + apply Z.eqb_neq in Erc. split; [exact Erc | constructor].
  - split; [exact I | constructor].
  - split; [exact I | constructor].
Qed.

Lemma app_main_fail_fast (w : BuildApp.world) a :
  fail_fast (BuildApp.proc w) (BuildApp.main w a).
Proof.
  unfold BuildApp.main. apply fail_fast_try.
  - unfold BuildApp.os_chdir.
    repeat first [ apply app_run_check_fail_fast
                 | apply fail_fast_silent; [reflexivity | exact I]
                 | fail_fast_step ].
  - intros e k He Hk.
    destruct e; cbn in Hk; try discriminate Hk; injection Hk as <-;
      cbn; split; try reflexivity; try discriminate; exact He.
Qed.

End FurtherFacts.

(** ** setup.py *)

Module SetupFacts.
Import Further FurtherFacts.
Import Setup.

(** Case analysis on everything the outside decides in the goal. *)
Ltac crunch :=
  repeat (cbn;
    match goal with
    | |- context [Build.proc ?w ?c] =>
        let E := fresh "E" in
        destruct (Build.proc w c) as [? ? ?| ? |] eqn:E
    | |- context [Build.path_exists ?w ?p] =>
        let E := fresh "E" in destruct (Build.path_exists w p) eqn:E
    | |- context [?rc =? 0] =>
        let E := fresh "E" in destruct (rc =? 0) eqn:E
    end).

Lemma run_command_checked_fail_fast w cmd :
  fail_fast (Build.proc w) (run_command w cmd true).
Proof.
  unfold run_command, subprocess_run, fail_fast, log.
  destruct (Build.proc w cmd) as [rc out err| |] eqn:E; cbn.
  - destruct (rc =? 0) eqn:Erc; cbn.
    + apply Z.eqb_eq in Erc. subst rc.
      destruct (nonempty out); cbn; repeat constructor;
        exists out, err; exact E.
    + destruct (nonempty err); cbn; (split; [discriminate | constructor]).
  - split; [exact I | constructor].
  - split; [exact I | constructor].
Qed.

Lemma setup_environment_fail_fast w :
  fail_fast (Build.proc w) (setup_development_environment w).
Proof.
  unfold setup_development_environment, run_command, subprocess_run,
    fail_fast, log.
  destruct (Build.proc w version_cmd) as [rc out err| |] eqn:E; cbn.
  - destruct (nonempty out); cbn; destruct (rc =? 0) eqn:Erc; cbn;
      try (split; [discriminate | constructor]);
      apply Z.eqb_eq in Erc; subst rc; repeat constructor;
      exists out, err; exact E.
  - split; [exact I | constructor].
  - split; [exact I | constructor].
Qed.

Lemma main_fail_fast w a : fail_fast (Build.proc w) (main w a).
Proof.
  unfold main, os_chdir, init_submodules, restore_packages.
  apply fail_fast_bind; [fail_fast_step | intros _].
  apply fail_fast_bind.
  { destruct (Build.chdir_raises w);
      (apply fail_fast_silent; [reflexivity | exact I]). }
  intros _. apply fail_fast_try.
  - repeat first [ apply setup_environment_fail_fast
                 | apply run_command_checked_fail_fast
                 | fail_fast_step ].
  - intros e k He Hk.
    destruct e; cbn in Hk; try discriminate Hk; injection Hk as <-;
      cbn; split; try reflexivity; discriminate.
Qed.

End SetupFacts.

Module SetupFacts2.
Import Further FurtherFacts.
Import Setup SetupFacts.

Lemma log_all_for_each_in {A} (P : event -> Prop) (l : list A) body :
  (forall x, In x l -> log_all P (body x)) -> log_all P (for_each l body).
Proof.
  induction l as [|x l IH]; intros Hb; simpl.
  - apply log_all_ret.
  - apply log_all_bind; [apply Hb; now left | intros _].
    apply IH. intros y Hy. apply Hb. now right.
Qed.

Lemma log_all_pair {A} (P : event -> Prop) (r : res A) l :
  Forall P l -> log_all P (r, l).
Proof. trivial. Qed.

(** Steps of a proof of [log_all P m] whose leaves [leaf] settles. *)
Ltac log_all_with leaf :=
  lazymatch goal with
  | |- log_all _ (ret _) => apply log_all_ret
  | |- log_all _ (raise _) => apply log_all_raise
  | |- log_all _ (sys_exit _) => apply log_all_raise
  | |- log_all _ (emit _) => apply log_all_emit; leaf
  | |- log_all _ (print _) => apply log_all_emit; leaf
  | |- log_all _ (bind _ _) => apply log_all_bind; [|intros ?]
  | |- log_all _ (for_each _ _) =>
      apply log_all_for_each_in; intros ? ?
  | |- log_all _ (try_except _ _) =>
      apply log_all_try;
      [| let e := fresh "e" in let k := fresh "k" in
         let Hk := fresh "Hk" in
         intros e k Hk; destruct e; cbn in Hk; try discriminate Hk;
         injection Hk as <-; unfold log_all, log; cbn [snd];
         repeat (apply Forall_cons; [leaf|]); apply Forall_nil ]
  | |- log_all _ (when ?b _) =>
      let E := fresh "E" in destruct b eqn:E; unfold when
  | |- log_all _ (if ?b then _ else _) =>
      let E := fresh "E" in destruct b eqn:E
  | |- log_all _ (match ?x with _ => _ end) =>
      let E := fresh "E" in destruct x eqn:E
  end.

Ltac allowed_leaf :=
  unfold setup_event_allowed;
  repeat match goal with
         | H : negb _ = true |- _ => apply negb_true_iff in H
         | H : negb _ = false |- _ => apply negb_false_iff in H
         | H : _ && _ = true |- _ => apply andb_true_iff in H; destruct H
         end;
  first [ exact I | tauto
        | right; right; split; [assumption|]; eexists;
          split; [eassumption|]; split; [eassumption | reflexivity] ].

(** [run_command] logs its own start, the child, what it echoes and, for
    a checked command that fails, the error. *)
Lemma setup_run_command_log (P : event -> Prop) w cmd check :
  (forall s, P (Say ("Running: " ++ s))) ->
  (forall s, P (Say ("Error running command: " ++ s))) ->
  (forall s, P (Say ("stderr: " ++ s))) ->
  (forall s, P (Echo s)) -> P (Run cmd) ->
  log_all P (run_command w cmd check).
Proof.
  intros HS H1 H2 HE HR.
  unfold run_command, subprocess_run, log_all, log.
  destruct (Build.proc w cmd) as [rc out err| |]; cbn -[String.append];
    [destruct check; cbn -[String.append];
       [destruct (rc =? 0); cbn -[String.append]|] |..];
    repeat match goal with
           | |- context [nonempty ?x] =>
               destruct (nonempty x); cbn -[String.append]
           end;
    repeat first [ apply Forall_nil | apply Forall_cons
                 | apply HS | apply H1 | apply H2 | apply HE | apply HR ].
Qed.

Ltac setup_child :=
  apply setup_run_command_log;
  [intros ?; exact I | intros ?; exact I | intros ?; exact I
  | intros ?; exact I | allowed_leaf].

Lemma main_events_allowed w a : log_all (setup_event_allowed w a) (main w a).
Proof.
  unfold main, os_chdir, setup_development_environment, init_submodules,
    restore_packages.
  repeat first [setup_child | log_all_with allowed_leaf].
Qed.

End SetupFacts2.

Module SetupFacts3.
Import Further FurtherFacts.
Import Setup SetupFacts SetupFacts2.

Lemma ends_cleanly_bind {A B} (m : M A) (f : A -> M B) :
  ends_cleanly m -> (forall a, ends_cleanly (f a)) -> ends_cleanly (bind m f).
Proof.
  unfold ends_cleanly. rewrite fst_bind. intros Hm Hf.
  destruct (fst m); [apply Hf | exact Hm].
Qed.

Lemma ends_cleanly_for_each {A} (l : list A) body :
  (forall x, ends_cleanly (body x)) -> ends_cleanly (for_each l body).
Proof.
  intros Hb. induction l as [|x l IH]; simpl.
  - exact I.
  - apply ends_cleanly_bind; [apply Hb | intros _; exact IH].
Qed.

Lemma run_command_ends_cleanly w cmd check :
  ends_cleanly (run_command w cmd check).
Proof.
  unfold run_command, subprocess_run, ends_cleanly.
  destruct (Build.proc w cmd) as [rc out err| |]; cbn;
    [destruct check; cbn; [destruct (rc =? 0); cbn|] |..];
    repeat match goal with
           | |- context [nonempty ?x] => destruct (nonempty x); cbn
           end;
    first [exact I | left; reflexivity | right; reflexivity].
Qed.

Ltac ends_cleanly_step :=
  lazymatch goal with
  | |- ends_cleanly (ret _) => exact I
  | |- ends_cleanly (emit _) => exact I
  | |- ends_cleanly (print _) => exact I
  | |- ends_cleanly (sys_exit 1) => left; reflexivity
  | |- ends_cleanly (run_command _ _ _) => apply run_command_ends_cleanly
  | |- ends_cleanly (bind _ _) => apply ends_cleanly_bind; [|intros ?]
  | |- ends_cleanly (for_each _ _) => apply ends_cleanly_for_each; intros ?
  | |- ends_cleanly (when ?b _) => destruct b; unfold when
  | |- ends_cleanly (if ?b then _ else _) => destruct b
  | |- ends_cleanly (match ?x with _ => _ end) => destruct x
  end.

Lemma setup_environment_ends_cleanly w :
  ends_cleanly (setup_development_environment w).
Proof. unfold setup_development_environment. repeat ends_cleanly_step. Qed.

Lemma init_submodules_ends_cleanly w : ends_cleanly (init_submodules w).
Proof. unfold init_submodules. repeat ends_cleanly_step. Qed.

Lemma restore_packages_ends_cleanly w : ends_cleanly (restore_packages w).
Proof. unfold restore_packages. repeat ends_cleanly_step. Qed.

Ltac quiet_child :=
  apply setup_run_command_log;
  [intros ?; reflexivity | intros ?; reflexivity | intros ?; reflexivity
  | intros ?; reflexivity | reflexivity].

Lemma setup_environment_quiet w :
  log_all (fun ev => is_setup_complete ev = false)
    (setup_development_environment w).
Proof.
  unfold setup_development_environment.
  repeat first [quiet_child | log_all_with reflexivity].
Qed.

Lemma init_submodules_quiet w :
  log_all (fun ev => is_setup_complete ev = false) (init_submodules w).
Proof.
  unfold init_submodules.
  repeat first [quiet_child | log_all_with reflexivity].
Qed.

Lemma restore_packages_quiet w :
  log_all (fun ev => is_setup_complete ev = false) (restore_packages w).
Proof.
  unfold restore_packages.
  repeat first [quiet_child | log_all_with reflexivity].
Qed.

Lemma not_setup_complete l :
  Forall (fun ev => is_setup_complete ev = false) l ->
  ~ In (Say setup_complete) l.
Proof.
  intros H Hin. rewrite Forall_forall in H. specialize (H _ Hin).
  cbn in H. discriminate.
Qed.

Ltac quiet_list :=
  unfold log_all, log in *; simpl in *;
  repeat first [ apply Forall_nil | assumption
               | apply Forall_cons; [reflexivity|]
               | apply Forall_app; split ].

Ltac find_line :=
  repeat first [ apply in_eq | apply in_cons | (apply in_or_app; right) ].

Ltac clean_cases H e :=
  unfold ends_cleanly in H; simpl in H; destruct H as [H|H];
  [subst e | destruct e; try discriminate H].

Lemma main_exit_and_banner w a :
  (exit_status (main w a) = Some 0 \/ exit_status (main w a) = Some 1)
  /\ (exit_status (main w a) = Some 0
      <-> In (Say setup_complete) (log (main w a))).
Proof.
  unfold main, os_chdir.
  pose proof (setup_environment_ends_cleanly w) as CE.
  pose proof (setup_environment_quiet w) as QE.
  pose proof (init_submodules_ends_cleanly w) as CI.
  pose proof (init_submodules_quiet w) as QI.
  pose proof (restore_packages_ends_cleanly w) as CR.
  pose proof (restore_packages_quiet w) as QR.
  set (E := setup_development_environment w) in *. clearbody E.
  set (I := init_submodules w) in *. clearbody I.
  set (R := restore_packages w) in *. clearbody R.
  assert (stop : forall l : list event,
            Forall (fun ev => is_setup_complete ev = false) l ->
            (Some 1 = Some 0 \/ Some 1 = Some 1)
            /\ (Some 1 = Some 0 <-> In (Say setup_complete) l)).
  { intros l Hl. split; [now right|]. split; [discriminate|].
    intros H. now apply not_setup_complete in H. }
  assert (done : forall l : list event,
            In (Say setup_complete) l ->
            (Some 0 = Some 0 \/ Some 0 = Some 1)
            /\ (Some 0 = Some 0 <-> In (Say setup_complete) l)).
  { intros l Hl. split; [now left | tauto]. }
  destruct (Build.chdir_raises w) as [msg|]; cbn -[In].
  { apply stop. quiet_list. }
  destruct E as [[[]|e] le]; cbn -[In].
  2:{ clean_cases CE e; cbn -[In]; apply stop; quiet_list. }
  destruct (skip_submodules a); cbn -[In].
  2: destruct I as [[[]|e] li]; cbn -[In];
       [| clean_cases CI e; cbn -[In]; apply stop; quiet_list].
  all: destruct (skip_restore a); cbn -[In].
  all: try (destruct R as [[[]|e] lr]; cbn -[In];
            [| clean_cases CR e; cbn -[In]; apply stop; quiet_list]).
  all: apply done; find_line.
Qed.

End SetupFacts3.

(** ** build.py: removals and echoes *)

Module BuildFacts2.
Import Further FurtherFacts.
Import SetupFacts2.

Ltac build_log_with leaf :=
  lazymatch goal with
  | |- log_all _ (for_fold _ _ _) => apply log_all_for_fold; intros ? ?
  | |- log_all _ (run_command _ _ false) =>
      apply BuildFacts.run_command_log; [intros ?; leaf | leaf | intros ?; leaf]
  | _ => log_all_with leaf
  end.

Ltac unfold_build :=
  unfold main, os_chdir, phases, print_summary, clean_project,
    build_project, build_solution, run_tests, test_one, run_application,
    select_project.

Ltac removal_leaf :=
  unfold removal_allowed;
  first [ exact I
        | split; [assumption|]; split; [assumption|];
          eexists; split; eassumption ].

Lemma main_removals_allowed w a : log_all (removal_allowed w a) (main w a).
Proof.
  unfold_build. repeat build_log_with removal_leaf.
Qed.

Lemma run_command_echo w cmd : log_all (echo_allowed w) (run_command w cmd false).
Proof.
  rewrite run_command_unchecked. unfold log_all, log.
  destruct (proc w cmd) as [rc out err| |] eqn:E; cbn [snd];
    [|repeat constructor ..].
  repeat (apply Forall_cons; [exact I|]). apply Forall_app. split.
  - destruct (nonempty out); repeat constructor.
    exists cmd, rc, out, err. split; [exact E | now left].
  - destruct (nonempty err && (rc =? 0)) eqn:Eb; repeat constructor.
    apply andb_true_iff in Eb. destruct Eb as [_ Eb].
    apply Z.eqb_eq in Eb.
    exists cmd, rc, out, err. split; [exact E | now right].
Qed.

Ltac echo_log :=
  lazymatch goal with
  | |- log_all _ (for_fold _ _ _) => apply log_all_for_fold; intros ? ?
  | |- log_all _ (run_command _ _ false) => apply run_command_echo
  | _ => log_all_with ltac:(exact I)
  end.

Lemma main_echo_allowed w a : log_all (echo_allowed w) (main w a).
Proof. unfold_build. repeat echo_log. Qed.

End BuildFacts2.

Module BuildFacts3.
Import Further FurtherFacts.

Section NoFiles.
Variable w : world.
Hypothesis no_file : forall p, path_exists w p = false.

Lemma clean_project_no_files :
  fst (clean_project w) = Ret tt /\ runs (log (clean_project w)) = [].
Proof.
  split.
  - assert (H : returns (clean_project w)).
    { unfold clean_project.
      repeat first [rewrite no_file | returns_step]. }
    unfold returns in H. destruct (fst (clean_project w)) as [[]|];
      [reflexivity | contradiction].
  - assert (H : log_all (fun ev => forall cmd, ev <> Run cmd)
                  (clean_project w)).
    { unfold clean_project.
      repeat first
        [ rewrite no_file
        | lazymatch goal with
          | |- log_all _ (emit _) => apply log_all_emit; discriminate
          | |- log_all _ (print _) => apply log_all_emit; discriminate
          | _ => SetupFacts2.log_all_with ltac:(discriminate)
          end ]. }
    unfold log_all in H. induction (log (clean_project w)) as [|ev l IH];
      [reflexivity|].
    inversion H; subst. destruct ev; simpl; auto.
    exfalso. eapply H2. reflexivity.
Qed.

End NoFiles.

End BuildFacts3.

(** ** build.py: cleaning comes first *)

Module OrderFacts.
Import Further FurtherFacts.

Lemma clean_first_of_no_clean l :
  Forall (fun ev => is_clean_event ev = false) l -> clean_comes_first l.
Proof.
  intros H l1 ev l2 -> _. apply Forall_app in H. destruct H as [_ H].
  now inversion H.
Qed.

Lemma clean_first_cons ev l :
  is_later_child ev = false -> clean_comes_first l ->
  clean_comes_first (ev :: l).
Proof.
  intros He Hl l1 ev' l2 E Hlater. destruct l1 as [|x l1]; simpl in E.
  - injection E as <- <-. congruence.
  - injection E as <- ->. eapply Hl; [reflexivity | exact Hlater].
Qed.

Lemma clean_first_app l l' :
  Forall (fun ev => is_later_child ev = false) l ->
  clean_comes_first l' -> clean_comes_first (l ++ l').
Proof.
  induction l as [|ev l IH]; intros H Hl'; [exact Hl'|].
  inversion H; subst. simpl. apply clean_first_cons; [assumption|].
  now apply IH.
Qed.

Ltac child_log :=
  apply run_command_log;
  [intros ?; reflexivity | reflexivity | intros ?; reflexivity].

Section Logs.
Variable w : world.

Lemma version_check_not_later :
  log_all (fun ev => is_later_child ev = false)
    (run_command w version_cmd false).
Proof. child_log. Qed.

Lemma clean_project_not_later :
  log_all (fun ev => is_later_child ev = false) (clean_project w).
Proof. unfold clean_project. repeat first [child_log | log_all_step]. Qed.

Lemma build_project_no_clean cfg :
  log_all (fun ev => is_clean_event ev = false) (build_project w cfg).
Proof.
  unfold build_project, build_solution.
  repeat first [child_log | log_all_step].
Qed.

Lemma run_tests_no_clean :
  log_all (fun ev => is_clean_event ev = false) (run_tests w).
Proof.
  unfold run_tests, test_one. repeat first [child_log | log_all_step].
Qed.

Lemma run_application_no_clean name :
  log_all (fun ev => is_clean_event ev = false) (run_application w name).
Proof.
  unfold run_application, select_project.
  repeat first [child_log | log_all_step].
Qed.

End Logs.

Ltac order_list :=
  unfold log_all, log in *; simpl in *; rewrite <- ?app_assoc; simpl;
  repeat first
    [ apply clean_first_cons; [reflexivity|]
    | apply clean_first_app; [assumption|]
    | apply clean_first_of_no_clean;
      repeat first [ apply Forall_nil | assumption
                   | apply Forall_cons; [reflexivity|]
                   | apply Forall_app; split ] ].

Lemma main_clean_comes_first w a : clean_comes_first (log (main w a)).
Proof.
  unfold main, os_chdir.
  destruct (chdir_raises w) as [msg|].
  { apply clean_first_of_no_clean. repeat constructor. }
  unfold phases, print_summary.
  pose proof (run_command_faults w version_cmd) as FV.
  pose proof (version_check_not_later w) as LV.
  pose proof (clean_project_faults w) as FC.
  pose proof (clean_project_not_later w) as LC.
  pose proof (build_project_faults w (configuration a)) as FB.
  pose proof (build_project_no_clean w (configuration a)) as LB.
  pose proof (run_tests_faults w) as FT.
  pose proof (run_tests_no_clean w) as LT.
  pose proof (run_application_faults w
                (if run_truthy a then run a else None)) as FR.
  pose proof (run_application_no_clean w
                (if run_truthy a then run a else None)) as LR.
  set (V := run_command w version_cmd false) in *. clearbody V.
  set (C := clean_project w) in *. clearbody C.
  set (B := build_project w (configuration a)) in *. clearbody B.
  set (T := run_tests w) in *. clearbody T.
  set (R := run_application w _) in *. clearbody R.
  destruct V as [[rv|ev] lv].
  2:{ fault_cases FV ev; cbn; order_list. }
  cbn. destruct (returncode rv =? 0); [|cbn; order_list].
  destruct (clean a); cbn.
  1: destruct C as [[[]|ec] lc];
       [| fault_cases FC ec; cbn; solve [order_list]]; cbn.
  all: destruct (skip_build a); cbn.
  all: try (destruct B as [[[|]|eb] lb];
            [| | fault_cases FB eb; cbn; solve [order_list]]; cbn).
  all: destruct (run_truthy a); cbn.
  all: destruct (test a); cbn.
  all: try (destruct T as [[[|]|et] lt];
            [| | fault_cases FT et; cbn; solve [order_list]]; cbn).
  all: destruct (run_requested a); cbn.
  all: try (destruct R as [[[|]|er] lr];
            [| | fault_cases FR er; cbn; solve [order_list]]; cbn).
  all: solve [order_list].
Qed.

End OrderFacts.

Module TestFacts.
Import Further FurtherFacts.
Import OrderFacts.

Section Logs.
Variable w : world.

Lemma version_check_before_run :
  log_all (fun ev => run_attempt ev || summary_event ev = false)
    (run_command w version_cmd false).
Proof. child_log. Qed.

Lemma clean_project_before_run :
  log_all (fun ev => run_attempt ev || summary_event ev = false)
    (clean_project w).
Proof. unfold clean_project. repeat first [child_log | log_all_step]. Qed.

Lemma build_project_before_run cfg :
  log_all (fun ev => run_attempt ev || summary_event ev = false)
    (build_project w cfg).
Proof.
  unfold build_project, build_solution.
  repeat first [child_log | log_all_step].
Qed.

Lemma run_tests_before_run :
  log_all (fun ev => run_attempt ev || summary_event ev = false)
    (run_tests w).
Proof.
  unfold run_tests, test_one. repeat first [child_log | log_all_step].
Qed.

Lemma run_application_announced name :
  exists l, log (run_application w name)
            = Say "Running application..." :: l.
Proof.
  unfold run_application. rewrite log_bind. cbn. eauto.
Qed.

End Logs.

End TestFacts.

(** ** The further properties *)

Import Further FurtherFacts FurtherCases.

(** X1.  r.py: the splitter never fails, it keeps a separator out of the
    script arguments, and it loses no token: the tokens after the
    script's name are the script arguments followed by the application
    arguments, with at most the one separator between them taken out. *)
Theorem X1_split_loses_no_token (argv : list string) :
  exists script_args app_args,
    split_args argv = Ret (script_args, app_args)
    /\ ~ In separator script_args
    /\ (slice_from argv 1 = (script_args ++ app_args)%list
        \/ slice_from argv 1
           = (script_args ++ separator :: app_args)%list).
Proof.
  destruct (split_args_total argv) as [[s a] Hs].
  exists s, a. split; [exact Hs|]. split.
  - eapply split_args_script_clean; eassumption.
  - destruct argv as [|a0 tokens].
    + left. cbv in Hs. injection Hs as <- <-. reflexivity.
    + destruct (string_dec a0 separator) as [->|Hne].
      * left. unfold split_args in Hs. cbn in Hs.
        injection Hs as <- <-. reflexivity.
      * rewrite (split_args_cons a0 tokens Hne) in Hs.
        unfold slice_from. cbn [skipn].
        destruct (index separator tokens) as [i|] eqn:Ei.
        -- injection Hs as <- <-. right.
           apply index_first_separator in Ei. destruct Ei as [Hi _].
           symmetry. now apply firstn_skipn_middle.
        -- injection Hs as <- <-. left. now rewrite app_nil_r.
Qed.

(** X2.  r.py: when [sys.argv] holds no separator, every token after the
    script's name is handed to [dotnet run], in order, and the command
    holds no separator. *)
Theorem X2_no_separator_forwards_all (argv : list string) :
  ~ In separator argv ->
  constructed_cmd argv = Some (dotnet_run_prefix ++ slice_from argv 1)%list
  /\ separators (dotnet_run_prefix ++ slice_from argv 1) = 0%nat.
Proof.
  intros Hn.
  assert (Hc : contains separator argv = false).
  { destruct (contains separator argv) eqn:E; [|reflexivity].
    apply contains_In in E. contradiction. }
  assert (Hs : split_args argv = Ret (slice_from argv 1, [])).
  { unfold split_args. now rewrite Hc. }
  split.
  - unfold constructed_cmd. rewrite Hs, build_cmd_eq. cbn [truthy].
    now rewrite app_nil_r.
  - unfold separators. rewrite count_occ_app.
    assert (Ht : ~ In separator (slice_from argv 1)).
    { intros H. apply Hn. unfold slice_from in H.
      destruct argv; simpl in H; [contradiction | now right]. }
    rewrite (proj1 (count_occ_not_In string_dec _ separator) Ht).
    reflexivity.
Qed.

Lemma X2_no_separator_forwards_all_witness :
  constructed_cmd ["r.py"; "--verbose"; "x"]
  = Some (dotnet_run_prefix ++ ["--verbose"; "x"])%list.
Proof.
  assert (H : ~ In separator ["r.py"; "--verbose"; "x"]).
  { simpl. intros [H|[H|[H|[]]]]; discriminate. }
  exact (proj1 (X2_no_separator_forwards_all _ H)).
Defined.

(** X3.  r.py: the calls that act on the child always form an initial
    segment of [Popen; wait; terminate; wait(timeout=5); kill], so at
    most one child is started and it is never killed without having been
    asked to terminate and waited for; [kill] is sent only after an
    interrupt whose grace period timed out. *)
Theorem X3_child_events_in_order
    (w : RunScript.world) (argv cmd : list string) :
  constructed_cmd argv = Some cmd ->
  initial_segment (child_events (log (RunScript.main w argv)))
    [Popen cmd; Wait None; Terminate; Wait (Some 5); Kill]
  /\ (In Kill (log (RunScript.main w argv)) ->
      wait_result w = WInterrupt /\ grace_result w = GTimeout).
Proof.
  unfold constructed_cmd, RunScript.main.
  destruct (split_args argv) as [[script_args app_args]|e]; [|discriminate].
  intros [= <-]. unfold RunScript.os_chdir, subprocess_Popen, process_wait,
    stop_application, process_wait_timeout, initial_segment.
  destruct (RunScript.chdir_raises w) as [[|m]|].
  1,2: split; [exists 0%nat; reflexivity | cbn; intuition discriminate].
  destruct (popen_raises w _) as [[|m]|].
  1,2: split; [exists 0%nat; reflexivity | cbn; intuition discriminate].
  destruct (wait_result w) as [rc|].
  - cbn. destruct (rc =? 0); cbn;
      (split; [exists 2%nat; reflexivity | intuition discriminate]).
  - destruct (grace_result w) as [rc| |]; cbn.
    + split; [exists 4%nat; reflexivity | intuition discriminate].
    + split; [exists 5%nat; reflexivity | intuition discriminate].
    + split; [exists 4%nat; reflexivity | intuition discriminate].
Qed.

Lemma X3_child_events_in_order_witness :
  let w := {| RunScript.chdir_raises := None;
              popen_raises := fun _ => None;
              wait_result := WInterrupt; grace_result := GExit 0 |} in
  constructed_cmd ["r.py"] = Some dotnet_run_prefix
  /\ initial_segment (child_events (log (RunScript.main w ["r.py"])))
       [Popen dotnet_run_prefix; Wait None; Terminate; Wait (Some 5); Kill].
Proof.
  intros w. split; [reflexivity|].
  exact (proj1 (X3_child_events_in_order w ["r.py"] _ eq_refl)).
Defined.

(** X4.  r.py: when the change of directory or [Popen] fails with an
    error of the system, the wrapper leaves with status 1 after printing
    [Error: ...], and it neither waits for, terminates nor kills
    anything. *)
Theorem X4_no_child_no_wait
    (w : RunScript.world) (argv cmd : list string) (msg : string) :
  constructed_cmd argv = Some cmd ->
  RunScript.chdir_raises w = Some (Fails msg)
  \/ (RunScript.chdir_raises w = None
      /\ popen_raises w cmd = Some (Fails msg)) ->
  exit_status (RunScript.main w argv) = Some 1
  /\ child_events (log (RunScript.main w argv)) = []
  /\ last (log (RunScript.main w argv)) Chdir = Say ("Error: " ++ msg).
Proof.
  unfold constructed_cmd, RunScript.main.
  destruct (split_args argv) as [[script_args app_args]|e]; [|discriminate].
  intros [= <-]. unfold RunScript.os_chdir, subprocess_Popen.
  intros [-> | [-> ->]]; repeat split.
Qed.

Lemma X4_no_child_no_wait_witness :
  let w := {| RunScript.chdir_raises := None;
              popen_raises := fun _ => Some (Fails "No such file");
              wait_result := WExit 0; grace_result := GTimeout |} in
  constructed_cmd ["r.py"] = Some dotnet_run_prefix
  /\ exit_status (RunScript.main w ["r.py"]) = Some 1.
Proof.
  intros w. split; [reflexivity|].
  exact (proj1 (X4_no_child_no_wait w ["r.py"] _ "No such file" eq_refl
                  (or_intror (conj eq_refl eq_refl)))).
Defined.

(** X5.  r.py: a second interrupt during the 5 seconds granted to the
    child leaves the inner handler: the wrapper leaves with status 1 and
    the child, asked to terminate, is never killed. *)
Theorem X5_second_interrupt_leaves_child
    (w : RunScript.world) (argv cmd : list string) :
  constructed_cmd argv = Some cmd ->
  RunScript.chdir_raises w = None -> popen_raises w cmd = None ->
  wait_result w = WInterrupt -> grace_result w = GInterrupt ->
  exit_status (RunScript.main w argv) = Some 1
  /\ child_events (log (RunScript.main w argv))
     = [Popen cmd; Wait None; Terminate; Wait (Some 5)].
Proof.
  unfold constructed_cmd, RunScript.main.
  destruct (split_args argv) as [[script_args app_args]|e]; [|discriminate].
  intros [= <-]. unfold RunScript.os_chdir, subprocess_Popen, process_wait,
    stop_application, process_wait_timeout.
  intros -> -> -> ->. split; reflexivity.
Qed.

Lemma X5_second_interrupt_leaves_child_witness :
  let w := {| RunScript.chdir_raises := None;
              popen_raises := fun _ => None;
              wait_result := WInterrupt; grace_result := GInterrupt |} in
  constructed_cmd ["r.py"] = Some dotnet_run_prefix
  /\ exit_status (RunScript.main w ["r.py"]) = Some 1.
Proof.
  intros w. split; [reflexivity|].
  exact (proj1 (X5_second_interrupt_leaves_child w ["r.py"] _ eq_refl
                  eq_refl eq_refl eq_refl eq_refl)).
Defined.

(** X6.  r.py: whatever [os.chdir], [Popen], [process.wait()] and
    [process.wait(timeout=5)] do (an OS error, an interrupt, the
    timeout, any return code), [main] ends by returning or through
    [sys.exit]; no other exception leaves it.  It returns only when
    [process.wait()] gave 0, and the argument of [sys.exit] is 0, 1 or
    the value that [process.wait()] gave. *)
Theorem X6_run_script_ends_by_exit
    (w : RunScript.world) (argv : list string) :
  (fst (RunScript.main w argv) = Ret tt /\ wait_result w = WExit 0)
  \/ exists c, fst (RunScript.main w argv) = Raise (SystemExit c)
               /\ (c = 0 \/ c = 1 \/ wait_result w = WExit c).
Proof.
  unfold RunScript.main.
  destruct (split_args_total argv) as [[script_args app_args] ->].
  unfold RunScript.os_chdir, subprocess_Popen, process_wait,
    stop_application, process_wait_timeout.
  destruct (RunScript.chdir_raises w) as [[|m]|];
    [right; exists 1; split; [reflexivity | tauto] ..|].
  destruct (popen_raises w _) as [[|m]|];
    [right; exists 1; split; [reflexivity | tauto] ..|].
  destruct (wait_result w) as [rc|].
  - cbn. destruct (rc =? 0) eqn:E; cbn.
    + apply Z.eqb_eq in E. subst rc. left. split; reflexivity.
    + right. exists rc. split; [reflexivity | tauto].
  - destruct (grace_result w) as [rc| |]; cbn; right;
      [exists 0 | exists 0 | exists 1]; (split; [reflexivity | tauto]).
Qed.

(** X7.  b.py stops at the first command that does not succeed: every
    command it started, but possibly the last one, exited with 0, and
    when the script leaves with status 0 all of them did. *)
Theorem X7_app_build_stops_at_first_failure
    (w : BuildApp.world) (a : BuildApp.args) :
  Forall (exited_ok (BuildApp.proc w))
    (removelast (runs (log (BuildApp.main w a))))
  /\ (exit_status (BuildApp.main w a) = Some 0 ->
      Forall (exited_ok (BuildApp.proc w))
        (runs (log (BuildApp.main w a)))).
Proof. apply fail_fast_exit, app_main_fail_fast. Qed.

(** X8.  b.py: when the commands that are requested all exit with 0, the
    script leaves with status 0 after starting, in this order, the clean
    command (with [--clean]), the build command, and the run command
    (with [--run]), and nothing else. *)
Theorem X8_app_build_success_order
    (w : BuildApp.world) (a : BuildApp.args) :
  BuildApp.chdir_raises w = None ->
  (BuildApp.clean a = true ->
   exited_ok (BuildApp.proc w) BuildApp.clean_cmd) ->
  exited_ok (BuildApp.proc w) BuildApp.build_cmd ->
  (BuildApp.run a = true -> exited_ok (BuildApp.proc w) BuildApp.run_cmd) ->
  exit_status (BuildApp.main w a) = Some 0
  /\ runs (log (BuildApp.main w a))
     = ((if BuildApp.clean a then [BuildApp.clean_cmd] else [])
        ++ [BuildApp.build_cmd]
        ++ (if BuildApp.run a then [BuildApp.run_cmd] else []))%list.
Proof.
  intros Hc Hclean (ob & eb & Hb) Hrun.
  unfold BuildApp.main, BuildApp.os_chdir, BuildApp.subprocess_run_check.
  rewrite Hc, Hb.
  destruct (BuildApp.clean a), (BuildApp.run a).
  - destruct (Hclean eq_refl) as (o1 & e1 & ->).
    destruct (Hrun eq_refl) as (o2 & e2 & ->). split; reflexivity.
  - destruct (Hclean eq_refl) as (o1 & e1 & ->). split; reflexivity.
  - destruct (Hrun eq_refl) as (o2 & e2 & ->). split; reflexivity.
  - split; reflexivity.
Qed.

Lemma X8_app_build_success_order_witness :
  let w := {| BuildApp.chdir_raises := None;
              BuildApp.proc := fun _ => Exited 0 EmptyString EmptyString |} in
  let a := {| BuildApp.clean := true; BuildApp.run := true |} in
  runs (log (BuildApp.main w a))
  = [BuildApp.clean_cmd; BuildApp.build_cmd; BuildApp.run_cmd].
Proof.
  intros w a.
  refine (proj2 (X8_app_build_success_order w a eq_refl _ _ _));
    try intros _; exists EmptyString, EmptyString; reflexivity.
Defined.

(** X9.  setup.py stops at the first command that does not succeed:
    every command it started, but possibly the last one, exited with 0,
    and when the script leaves with status 0 all of them did. *)
Theorem X9_setup_stops_at_first_failure (w : world) (a : Setup.args) :
  Forall (exited_ok (proc w)) (removelast (runs (log (Setup.main w a))))
  /\ (exit_status (Setup.main w a) = Some 0 ->
      Forall (exited_ok (proc w)) (runs (log (Setup.main w a)))).
Proof. apply fail_fast_exit, SetupFacts.main_fail_fast. Qed.

(** X10.  setup.py starts nothing but the SDK check, the two
    [git submodule] commands (only when submodules are not skipped and
    [.gitmodules] exists) and [dotnet restore] for a solution that
    exists (only when restoring is not skipped). *)
Theorem X10_setup_commands (w : world) (a : Setup.args) (cmd : list string) :
  In cmd (runs (log (Setup.main w a))) ->
  cmd = Setup.version_cmd
  \/ (Setup.skip_submodules a = false
      /\ path_exists w ".gitmodules" = true
      /\ (cmd = Setup.submodule_init_cmd
          \/ cmd = Setup.submodule_update_cmd))
  \/ (Setup.skip_restore a = false
      /\ exists s, In s Setup.solutions /\ path_exists w s = true
                   /\ cmd = Setup.restore_cmd s).
Proof.
  intros H. apply In_runs in H.
  pose proof (SetupFacts2.main_events_allowed w a) as HA.
  unfold log_all in HA. rewrite Forall_forall in HA.
  exact (HA _ H).
Qed.

Lemma X10_setup_commands_witness :
  In Setup.submodule_init_cmd (runs (log (Setup.main with_submodules setup_args)))
  /\ path_exists with_submodules ".gitmodules" = true.
Proof.
  assert (H : In Setup.submodule_init_cmd
                (runs (log (Setup.main with_submodules setup_args))))
    by (vm_compute; tauto).
  split; [exact H|].
  destruct (X10_setup_commands with_submodules setup_args _ H)
    as [E | [(_ & E & _) | (_ & s & _ & _ & E)]];
    [discriminate E | exact E | discriminate E].
Defined.

(** X11.  setup.py removes nothing but the serilog directory, and only
    an orphaned one: submodules are not skipped, there is no
    [.gitmodules], the directory exists and holds no [.git]. *)
Theorem X11_setup_removes_only_orphan
    (w : world) (a : Setup.args) (p : string) :
  In p (removals (log (Setup.main w a))) ->
  p = Setup.serilog_path
  /\ Setup.skip_submodules a = false
  /\ path_exists w ".gitmodules" = false
  /\ path_exists w Setup.serilog_path = true
  /\ path_exists w (Setup.joinpath Setup.serilog_path ".git") = false.
Proof.
  intros H. apply In_removals in H.
  pose proof (SetupFacts2.main_events_allowed w a) as HA.
  unfold log_all in HA. rewrite Forall_forall in HA.
  exact (HA _ H).
Qed.

Lemma X11_setup_removes_only_orphan_witness :
  In Setup.serilog_path (removals (log (Setup.main with_orphan setup_args)))
  /\ path_exists with_orphan ".gitmodules" = false.
Proof.
  assert (H : In Setup.serilog_path
                (removals (log (Setup.main with_orphan setup_args))))
    by (vm_compute; tauto).
  split; [exact H|].
  exact (proj1 (proj2 (proj2 (X11_setup_removes_only_orphan
                                with_orphan setup_args _ H)))).
Defined.


(** X13.  build.py, once [parser.parse_args()] has returned (from line
    200 on).  [os.chdir] at line 204 stands outside the [try]: when it
    fails, its [OSError] leaves [main] uncaught, after the banner and
    nothing else.  When it succeeds, [main] ends by returning or through
    [sys.exit(1)], whatever the children do: a spawn error or an
    interrupt of [subprocess.run] is caught at lines 257-262, and no
    return code of a child becomes the argument of [sys.exit]. *)
Theorem X13_build_main_ends_by_exit (w : world) (a : args) :
  (forall msg, chdir_raises w = Some msg ->
     main w a = (Raise (OSError msg), [Say "=== CsharpUAI Build Script ==="]))
  /\ (chdir_raises w = None ->
      fst (main w a) = Ret tt \/ fst (main w a) = Raise (SystemExit 1)).
Proof.
  split.
  { intros msg E. unfold main, os_chdir. rewrite E. reflexivity. }
  intros E. unfold main, os_chdir. rewrite E.
  unfold phases, print_summary.
  pose proof (run_command_faults w version_cmd) as FV.
  pose proof (clean_project_faults w) as FC.
  pose proof (build_project_faults w (configuration a)) as FB.
  pose proof (run_tests_faults w) as FT.
  pose proof (run_application_faults w
                (if run_truthy a then run a else None)) as FR.
  set (V := run_command w version_cmd false) in *. clearbody V.
  set (C := clean_project w) in *. clearbody C.
  set (B := build_project w (configuration a)) in *. clearbody B.
  set (T := run_tests w) in *. clearbody T.
  set (R := run_application w _) in *. clearbody R.
  destruct V as [[rv|ev] lv].
  2:{ fault_cases FV ev; right; reflexivity. }
  cbn. destruct (returncode rv =? 0); [|right; reflexivity].
  destruct (clean a); cbn.
  1: destruct C as [[[]|ec] lc];
       [| fault_cases FC ec; right; reflexivity]; cbn.
  all: destruct (skip_build a); cbn.
  all: try (destruct B as [[[|]|eb] lb];
            [| | fault_cases FB eb; right; reflexivity]; cbn).
  all: destruct (run_truthy a); cbn.
  all: destruct (test a); cbn.
  all: try (destruct T as [[[|]|et] lt];
            [| | fault_cases FT et; right; reflexivity]; cbn).
  all: destruct (run_requested a); cbn.
  all: try (destruct R as [[[|]|er] lr];
            [| | fault_cases FR er; right; reflexivity]; cbn).
  all: first [left; reflexivity | right; reflexivity].
Qed.

Lemma X13_build_main_ends_by_exit_witness :
  chdir_raises build_fails = None
  /\ (fst (main build_fails default_args) = Ret tt
      \/ fst (main build_fails default_args) = Raise (SystemExit 1)).
Proof.
  split; [reflexivity|].
  exact (proj2 (X13_build_main_ends_by_exit build_fails default_args)
           eq_refl).
Defined.

(** X14.  build.py: the [check] flag of [run_command] changes what is
    printed, never the result.  With or without it the function returns
    or raises the same; for a child that has exited, with whatever code,
    it returns that code with the captured stdout and stderr, the
    [CalledProcessError] that [subprocess.run] raises under [check] being
    caught at line 32 and returned.  For a child that exited with a code
    other than 0, the call with [check] echoes none of its output and
    prints its stderr after [stderr: ]; the call without [check] echoes
    its stdout. *)
Theorem X14_check_flag_keeps_result (w : world) (cmd : list string) :
  (forall check,
     fst (run_command w cmd check) = fst (run_command w cmd false))
  /\ (forall check rc out err, proc w cmd = Exited rc out err ->
        fst (run_command w cmd check)
        = Ret {| returncode := rc; stdout := out; stderr := err |})
  /\ (forall rc out err, proc w cmd = Exited rc out err -> rc <> 0 ->
        (forall s, ~ In (Echo s) (log (run_command w cmd true)))
        /\ (nonempty out = true ->
            In (Echo out) (log (run_command w cmd false)))
        /\ (nonempty err = true ->
            In (Say ("stderr: " ++ err)) (log (run_command w cmd true)))).
Proof.
  split; [|split].
  - intros check. unfold run_command, subprocess_run.
    destruct (proc w cmd) as [rc out err| |]; destruct check; cbn;
      repeat (match goal with
              | |- context [when ?b _] => destruct b
              | |- context [if ?b then _ else _] => destruct b
              end; cbn);
      reflexivity.
  - intros check rc out err E. unfold run_command, subprocess_run.
    rewrite E. destruct check; cbn;
      repeat (match goal with
              | |- context [when ?b _] => destruct b
              | |- context [if ?b then _ else _] => destruct b
              end; cbn);
      reflexivity.
  - intros rc out err E Hrc. unfold run_command, subprocess_run.
    rewrite E. apply Z.eqb_neq in Hrc. cbn. rewrite Hrc. cbn.
    rewrite andb_false_r. split; [|split].
    + intros s. destruct (nonempty err); cbn;
        intros H; repeat (destruct H as [H|H]; [discriminate|]); exact H.
    + intros ->. cbn. auto.
    + intros ->. cbn. auto.
Qed.

Lemma X14_check_flag_keeps_result_witness :
  In (Echo "CS1002") (log (run_command noisy_failure version_cmd false))
  /\ In (Say "stderr: MSB1009")
       (log (run_command noisy_failure version_cmd true)).
Proof.
  pose proof (proj2 (proj2 (X14_check_flag_keeps_result
                              noisy_failure version_cmd))
                1 "CS1002" "MSB1009" eq_refl ltac:(discriminate)) as H.
  split.
  - exact (proj1 (proj2 H) eq_refl).
  - exact (proj2 (proj2 H) eq_refl).
Defined.

(** X15.  build.py: a run target that is no key of [runnable_projects]
    is treated like no target at all (the default project is run); a
    target that is a key but whose project file is missing makes the run
    phase fail without falling back to the other project and without
    starting a child. *)
Theorem X15_run_target_resolution (w : world) (name : string) :
  (dict_get runnable_projects name = None ->
   run_application w (Some name) = run_application w None)
  /\ (forall project, dict_get runnable_projects name = Some project ->
      path_exists w project = false ->
      fst (run_application w (Some name)) = Ret false
      /\ runs (log (run_application w (Some name))) = []).
Proof.
  split.
  - intros H. unfold run_application, select_project. rewrite H.
    destruct (nonempty name); reflexivity.
  - intros project H Hp. unfold run_application, select_project.
    assert (Hn : nonempty name = true).
    { destruct name; [discriminate H | reflexivity]. }
    rewrite Hn, H. cbn. rewrite Hp. split; reflexivity.
Qed.

Lemma X15_run_target_resolution_witness :
  dict_get runnable_projects "tests" = None
  /\ run_application (calm []) (Some "tests") = run_application (calm []) None.
Proof.
  split; [reflexivity|].
  exact (proj1 (X15_run_target_resolution (calm []) "tests") eq_refl).
Defined.

(** X16.  build.py: when the SDK check does not pass, nothing is
    cleaned, built, tested or run, and the wrapper leaves with status 1.
    The line [ERROR: .NET SDK not found...] is the last one printed when
    [dotnet --version] exits with a code other than 0; when [dotnet]
    cannot be started at all it is the catch-all handler that prints
    [Build failed: ...]. *)
Theorem X16_sdk_check_stops_everything (w : world) (a : args) :
  chdir_raises w = None ->
  ((exists rc out err, proc w version_cmd = Exited rc out err /\ rc <> 0) ->
     exit_status (main w a) = Some 1
     /\ runs (log (main w a)) = [version_cmd]
     /\ removals (log (main w a)) = []
     /\ last (log (main w a)) Chdir
        = Say "ERROR: .NET SDK not found. Please install .NET 8 SDK.")
  /\ (forall msg, proc w version_cmd = SpawnError msg ->
     exit_status (main w a) = Some 1
     /\ runs (log (main w a)) = [version_cmd]
     /\ removals (log (main w a)) = []
     /\ last (log (main w a)) Chdir = Say ("Build failed: " ++ msg)).
Proof.
  intros Hc. unfold main, os_chdir, phases. rewrite Hc.
  rewrite run_command_unchecked. split.
  - intros (rc & out & err & -> & Hrc).
    apply Z.eqb_neq in Hrc. cbn. rewrite Hrc.
    destruct (nonempty out); cbn; rewrite ?andb_false_r; cbn;
      repeat split.
  - intros msg ->. repeat split.
Qed.

Lemma X16_sdk_check_stops_everything_witness :
  chdir_raises sdk_check_fails = None
  /\ runs (log (main sdk_check_fails test_run_args)) = [version_cmd].
Proof.
  split; [reflexivity|].
  refine (proj1 (proj2 (proj1 (X16_sdk_check_stops_everything
            sdk_check_fails test_run_args eq_refl) _))).
  exists 1, EmptyString, EmptyString. split; [reflexivity | discriminate].
Defined.

(** X17.  build.py: provided its children can be started, the build
    phase starts [dotnet build] for every solution that exists, in the
    order of the list and whatever the earlier ones returned, and
    nothing else. *)
Theorem X17_every_present_solution_is_built (w : world) (cfg : string) :
  (forall s, In s solutions -> path_exists w s = true ->
             child_exited w (build_cmd s cfg)) ->
  runs (log (build_project w cfg))
  = map (fun s => build_cmd s cfg) (filter (path_exists w) solutions).
Proof.
  intros H. unfold build_project, build_solution, solutions in *.
  cbn [for_fold filter map].
  destruct (path_exists w "MultiLLM.sln") eqn:E1;
    destruct (path_exists w "MultipleAIApp/MultipleAIApp.sln") eqn:E2.
  all: rewrite ?run_command_unchecked.
  all: try (destruct (H "MultiLLM.sln") as (rc1 & o1 & e1 & ->);
            [simpl; tauto | assumption |]).
  all: try (destruct (H "MultipleAIApp/MultipleAIApp.sln")
              as (rc2 & o2 & e2 & ->); [simpl; tauto | assumption |]).
  all: cbn;
    repeat (match goal with
            | |- context [if ?b then _ else _] => destruct b
            end; cbn);
    reflexivity.
Qed.

Lemma X17_every_present_solution_is_built_witness :
  fst (build_project both_solutions_fail "Release") = Ret false
  /\ runs (log (build_project both_solutions_fail "Release"))
     = [build_cmd "MultiLLM.sln" "Release";
        build_cmd "MultipleAIApp/MultipleAIApp.sln" "Release"].
Proof.
  split; [reflexivity|].
  refine (X17_every_present_solution_is_built both_solutions_fail
            "Release" _).
  intros s _ _. unfold child_exited. simpl.
  destruct (is_build_cmd (build_cmd s "Release"));
    eexists; eexists; eexists; reflexivity.
Defined.

(** X18.  build.py: in a directory that holds none of the solution and
    project files, with the SDK check passed, the wrapper starts no other
    child and leaves with status 0, whatever was requested. *)
Theorem X18_empty_checkout_exits_zero (w : world) (a : args) :
  (forall p, path_exists w p = false) ->
  chdir_raises w = None ->
  exited_ok (proc w) version_cmd ->
  exit_status (main w a) = Some 0
  /\ runs (log (main w a)) = [version_cmd].
Proof.
  intros Hn Hc (out & err & Hv).
  destruct (BuildFacts3.clean_project_no_files w Hn) as [HC1 HC2].
  unfold main, os_chdir, phases, print_summary, build_project,
    build_solution, run_tests, test_one, run_application, select_project,
    run_truthy, run_requested.
  rewrite Hc, run_command_unchecked, Hv.
  destruct (clean_project w) as [rc lc]. simpl in HC1, HC2. subst rc.
  cbn [for_fold solutions test_projects].
  rewrite !Hn.
  destruct (nonempty out), (nonempty err).
  all: destruct (clean a), (skip_build a), (test a);
       destruct (run a) as [s|];
       try (destruct (nonempty s) eqn:En;
            destruct (dict_get runnable_projects s) eqn:Ed);
       cbn; rewrite ?En, ?Ed; cbn; rewrite ?Hn; cbn;
       rewrite ?runs_app, ?HC2; cbn; (split; reflexivity).
Qed.

Lemma X18_empty_checkout_exits_zero_witness :
  exit_status (main (calm []) test_run_args) = Some 0.
Proof.
  refine (proj1 (X18_empty_checkout_exits_zero (calm []) test_run_args
                   _ eq_refl _)).
  - intros p. reflexivity.
  - exists EmptyString, EmptyString. reflexivity.
Defined.

(** X19.  build.py: after tests that failed the wrapper leaves with
    status 1.  With a run target named ([--run demo]) the application is
    still started before that; with a bare [--run] or without it the
    wrapper stops at once, before the run phase and without a summary. *)
Theorem X19_failed_tests_before_run (w : world) (a : args) :
  chdir_raises w = None ->
  exited_ok (proc w) version_cmd ->
  (clean a = true -> fst (clean_project w) = Ret tt) ->
  tests_failed w a ->
  exit_status (main w a) = Some 1
  /\ (run_truthy a = true ->
      In (Say "Running application...") (log (main w a)))
  /\ (run_truthy a = false ->
      log_all (fun ev => run_attempt ev || summary_event ev = false)
        (main w a)).
Proof.
  intros Hc (out & err & Hv) Hclean (Ht & Hb & Hf).
  unfold build_passed_or_skipped in Hb.
  unfold main, os_chdir, phases, print_summary. rewrite Hc, Ht.
  pose proof (TestFacts.version_check_before_run w) as LV.
  pose proof (TestFacts.clean_project_before_run w) as LC.
  pose proof (TestFacts.build_project_before_run w (configuration a)) as LB.
  pose proof (TestFacts.run_tests_before_run w) as LT.
  destruct (TestFacts.run_application_announced w
              (if run_truthy a then run a else None)) as [lr' LR].
  pose proof (run_application_faults w
                (if run_truthy a then run a else None)) as FR.
  rewrite run_command_unchecked in *. rewrite Hv in *.
  destruct (nonempty out), (nonempty err).
  all: set (C := clean_project w) in *; clearbody C.
  all: set (B := build_project w (configuration a)) in *; clearbody B.
  all: set (T := run_tests w) in *; clearbody T.
  all: set (R := run_application w _) in *; clearbody R.
  all: destruct T as [rt lt]; simpl in Hf; subst rt.
  all: destruct R as [rr lr]; unfold log in LR; simpl in LR; subst lr.
  all: destruct C as [rc lc]; destruct B as [rb lb].
  all: destruct (clean a);
       [specialize (Hclean eq_refl); simpl in Hclean; subst rc|].
  all: destruct (skip_build a);
       [| destruct Hb as [Hb|Hb]; [discriminate|];
          simpl in Hb; subst rb].
  all: destruct (run_truthy a) eqn:Hrt.
  all: cbn -[In].
  all: try (assert (Hreq : run_requested a = true)
              by (unfold run_truthy, run_requested in *;
                  destruct (run a); [reflexivity | discriminate]);
            rewrite Hreq; cbn -[In]).
  all: try (destruct rr as [[|]|er]; [| | fault_cases FR er]; cbn -[In]).
  all: (split; [reflexivity|]); split; intros Hx; try discriminate Hx;
       first [ solve [rewrite <- ?app_assoc; cbn [app];
                      SetupFacts3.find_line]
             | solve [SetupFacts3.quiet_list] ].
Qed.

Lemma X19_failed_tests_before_run_witness :
  tests_failed tests_fail test_run_args
  /\ exit_status (main tests_fail test_run_args) = Some 1
  /\ In (Say "Running application...") (log (main tests_fail test_run_args)).
Proof.
  assert (Ht : tests_failed tests_fail test_run_args).
  { split; [reflexivity|]. split; [right|]; reflexivity. }
  assert (Hv : exited_ok (proc tests_fail) version_cmd)
    by (exists EmptyString, EmptyString; reflexivity).
  assert (Hc : clean test_run_args = true
               -> fst (clean_project tests_fail) = Ret tt)
    by (intros _; reflexivity).
  split; [exact Ht|].
  destruct (X19_failed_tests_before_run tests_fail test_run_args
              eq_refl Hv Hc Ht) as (He & Hr & _).
  split; [exact He | exact (Hr eq_refl)].
Defined.

(** X20.  build.py: cleaning is over before any build, test or run child
    is started: in the log of the wrapper no removal and no
    [dotnet clean] follows the start of such a child. *)
Theorem X20_clean_comes_first (w : world) (a : args)
    (l1 l2 : list event) (ev : event) :
  log (main w a) = (l1 ++ ev :: l2)%list ->
  is_later_child ev = true ->
  Forall (fun ev' => is_clean_event ev' = false) l2.
Proof.
  intros H. exact (OrderFacts.main_clean_comes_first w a l1 ev l2 H).
Qed.

Lemma X20_clean_comes_first_witness :
  let l := log (main (calm files) clean_args) in
  nth 12 l Chdir = Run (build_cmd "MultiLLM.sln" "Release")
  /\ Forall (fun ev' => is_clean_event ev' = false) (skipn 13 l).
Proof.
  intros l. split; [reflexivity|].
  exact (X20_clean_comes_first (calm files) clean_args (firstn 12 l)
           (skipn 13 l) (Run (build_cmd "MultiLLM.sln" "Release"))
           eq_refl eq_refl).
Defined.

(** X21.  build.py removes a path only with [--clean], and only a
    directory that one of the patterns of [clean_dirs] matches. *)
Theorem X21_build_removals (w : world) (a : args) (p : string) :
  In p (removals (log (main w a))) ->
  clean a = true /\ is_dir w p = true
  /\ exists pattern, In pattern clean_dirs /\ In p (glob w pattern).
Proof.
  intros H. apply In_removals in H.
  pose proof (BuildFacts2.main_removals_allowed w a) as HA.
  unfold log_all in HA. rewrite Forall_forall in HA.
  exact (HA _ H).
Qed.

Lemma X21_build_removals_witness :
  In "bin" (removals (log (main with_bin clean_args)))
  /\ clean clean_args = true.
Proof.
  assert (H : In "bin" (removals (log (main with_bin clean_args))))
    by (vm_compute; tauto).
  split; [exact H|].
  exact (proj1 (X21_build_removals with_bin clean_args _ H)).
Defined.

(** X22.  build.py echoes nothing but output of its children: the stdout
    of a child, or the stderr of a child that exited with 0.  What a
    failing child wrote to stderr is not shown. *)
Theorem X22_build_echoes (w : world) (a : args) (s : string) :
  In (Echo s) (log (main w a)) ->
  exists cmd rc out err,
    proc w cmd = Exited rc out err /\ (s = out \/ (s = err /\ rc = 0)).
Proof.
  intros H.
  pose proof (BuildFacts2.main_echo_allowed w a) as HA.
  unfold log_all in HA. rewrite Forall_forall in HA.
  destruct (HA _ H) as (cmd & rc & out & err & E).
  exists cmd, rc, out, err. exact E.
Qed.

Lemma X22_build_echoes_witness :
  In (Echo "8.0.100") (log (main sdk_prints_version default_args))
  /\ exists cmd rc out err,
       proc sdk_prints_version cmd = Exited rc out err
       /\ ("8.0.100" = out \/ ("8.0.100" = err /\ rc = 0)).
Proof.
  assert (H : In (Echo "8.0.100")
                (log (main sdk_prints_version default_args)))
    by (vm_compute; tauto).
  split; [exact H|].
  exact (X22_build_echoes sdk_prints_version default_args _ H).
Defined.
